(** * Graphite upload planning: src/gpu/graphite/task/UploadTask.cpp

    A shallow embedding of the staging-buffer layout planner
    ([compute_combined_buffer_size]), of the two [UploadInstance] factories,
    of command emission ([UploadInstance::addCommand]) and of the
    [UploadList] / [UploadTask] wrappers, with the properties the
    specification states about them.

    Conventions.
    - [size_t] values are [N]; every [size_t] operation of the source is
      written with its reduction modulo 2^64 ([size_add], [size_mul],
      [to_size_t]).
    - [int] / [int32_t] values are [Z]; the source only divides them by two,
      takes maxima and adds a width to a left edge.
    - A pointer that may be null is an [option]; [None] is [nullptr].
    - Collaborators with private state (the upload buffer manager, the
      resource provider, a conditional upload context) are records that
      carry their state together with their methods; calling a method gives
      back the object in its next state. *)

From Stdlib Require Import ZArith NArith List Bool Lia.
Import ListNotations.

(** ** [size_t] arithmetic *)

Definition size_t_range : N := 2 ^ 64.

Definition to_size_t (z : Z) : N := Z.to_N (z mod 2 ^ 64).
Definition size_add (a b : N) : N := ((a + b) mod size_t_range)%N.
Definition size_mul (a b : N) : N := ((a * b) mod size_t_range)%N.

(** [x] rounded up to a multiple of [a], as a natural number. *)
Definition align_up (x a : N) : N := ((x + a - 1) / a * a)%N.

(** Modelled from the spec: [SkAlignTo] (include/private/base/SkAlign.h is
    not among the sources).  The spec writes [align(x, alignment)]: [x]
    rounded up to the next multiple of [alignment]; the result is a
    [size_t]. *)
Definition SkAlignTo (x alignment : N) : N := (align_up x alignment mod size_t_range)%N.

Definition sumN (l : list N) : N := fold_right N.add 0%N l.

(** The running total before each element of [sizes] is added, starting
    from [start]. *)
Fixpoint running_totals (start : N) (sizes : list N) : list N :=
  match sizes with
  | [] => []
  | s :: rest => start :: running_totals (start + s) rest
  end.

(** ** Geometry: [SkISize] and [SkIRect] *)

Record SkISize := MakeISize { fWidth : Z; fHeight : Z }.

Record SkIRect := MakeLTRB { fLeft : Z; fTop : Z; fRight : Z; fBottom : Z }.

Record SkIVector := MakeIVector { fX : Z; fY : Z }.

(** Modelled from the spec: the [SkIRect] helpers of include/core/SkRect.h,
    which is not among the sources: width and height, emptiness ("destination
    rect empty"), translation by a vector and intersection. *)
Definition rect_width (r : SkIRect) : Z := fRight r - fLeft r.
Definition rect_height (r : SkIRect) : Z := fBottom r - fTop r.
Definition rect_size (r : SkIRect) : SkISize := MakeISize (rect_width r) (rect_height r).
Definition rect_isEmpty (r : SkIRect) : bool :=
  (rect_width r <=? 0)%Z || (rect_height r <=? 0)%Z.
Definition rect_MakeSize (s : SkISize) : SkIRect := MakeLTRB 0 0 (fWidth s) (fHeight s).
Definition rect_offset (r : SkIRect) (d : SkIVector) : SkIRect :=
  MakeLTRB (fLeft r + fX d) (fTop r + fY d) (fRight r + fX d) (fBottom r + fY d).

(** [SkIRect::intersect]: [None] when the intersection is empty (the method
    returns false and leaves the rect alone), else the intersection. *)
Definition rect_intersect (a b : SkIRect) : option SkIRect :=
  let tmp := MakeLTRB (Z.max (fLeft a) (fLeft b)) (Z.max (fTop a) (fTop b))
                      (Z.min (fRight a) (fRight b)) (Z.min (fBottom a) (fBottom b)) in
  if rect_isEmpty tmp then None else Some tmp.

(** ** Formats *)

Inductive SkTextureCompressionType :=
| kNone
| kETC2_RGB8_UNORM
| kBC1_RGB8_UNORM
| kBC1_RGBA8_UNORM.

Definition compression_is_none (c : SkTextureCompressionType) : bool :=
  match c with kNone => true | _ => false end.

(** The colour types this file names, and the others by their number. *)
Inductive SkColorType :=
| kUnknown_SkColorType
| kRGB_888x_SkColorType
| kOther_SkColorType (code : nat).

Definition is_unknown_color_type (c : SkColorType) : bool :=
  match c with kUnknown_SkColorType => true | _ => false end.

Record SkColorInfo := MakeColorInfo {
  colorType : SkColorType;
  alphaType : nat;
  colorSpace : option nat
}.

Definition SkColorType_eqb (a b : SkColorType) : bool :=
  match a, b with
  | kUnknown_SkColorType, kUnknown_SkColorType => true
  | kRGB_888x_SkColorType, kRGB_888x_SkColorType => true
  | kOther_SkColorType m, kOther_SkColorType n => Nat.eqb m n
  | _, _ => false
  end.

Definition option_nat_eqb (a b : option nat) : bool :=
  match a, b with
  | None, None => true
  | Some m, Some n => Nat.eqb m n
  | _, _ => false
  end.

(** [operator==] of [SkColorInfo]. *)
Definition SkColorInfo_eqb (a b : SkColorInfo) : bool :=
  SkColorType_eqb (colorType a) (colorType b)
  && Nat.eqb (alphaType a) (alphaType b)
  && option_nat_eqb (colorSpace a) (colorSpace b).

Record TextureInfo := MakeTextureInfo {
  compressionType : SkTextureCompressionType;
  mipmapped : bool
}.

(** ** Device capabilities: the part of [Caps] this file calls *)

Record Caps := MakeCaps {
  requiredTransferBufferAlignment : N;
  getAlignedTextureDataRowBytes : N -> N;
  supportedWritePixelsColorType :
    SkColorType -> TextureInfo -> SkColorType -> SkColorType * bool;
  fullCompressedUploadSizeMustAlignToBlockDims : bool
}.

(** ** Handles and plain data *)

(** The address a non-null pointer holds. *)
Definition pointer := option N.

Definition Buffer := N.
Definition Texture := N.
Definition Context := N.

(** [TextureProxy]: dimensions, texture info and the texture it is
    instantiated with ([texture()] is null before instantiation). *)
Record TextureProxy := MakeTextureProxy {
  dimensions : SkISize;
  textureInfo : TextureInfo;
  texture : option Texture
}.

Record MipLevel := MakeMipLevel {
  fPixels : pointer;
  fRowBytes : N
}.

Record BufferTextureCopyData := MakeCopyData {
  fBufferOffset : N;
  fBufferRowBytes : N;
  fRect : SkIRect;
  fMipLevel : N
}.

Record BindBufferInfo := MakeBindBufferInfo {
  bufferInfo_fBuffer : option Buffer;
  bufferInfo_fOffset : N
}.

Record SkImageInfo := MakeImageInfo {
  imageDimensions : SkISize;
  imageColorInfo : SkColorInfo
}.

(** Where the degraded RGB pack reads from: the caller's rows, or the
    temporary pixmap [SkConvertPixels] filled from them. *)
Inductive RGBSource :=
| SourceRows (src : pointer)
| ConvertedRows (dstImageInfo srcImageInfo : SkImageInfo) (src : pointer) (srcRowBytes : N).

(** The three packing calls on the [UploadWriter] of a reservation. *)
Inductive WriterCall :=
| writer_write (offset : N) (src : pointer) (srcRowBytes dstRowBytes trimRowBytes : N)
               (rowCount : Z)
| writer_convertAndWrite (offset : N) (srcInfo : SkImageInfo) (src : pointer)
                         (srcRowBytes : N) (dstInfo : SkImageInfo) (dstRowBytes : N)
| writer_writeRGBFromRGBx (offset : N) (src : RGBSource) (srcRowBytes dstRowBytes : N)
                          (width height : Z).

Definition is_writeRGBFromRGBx (c : WriterCall) : bool :=
  match c with writer_writeRGBFromRGBx _ _ _ _ _ _ => true | _ => false end.

(** ** Collaborators with state *)

(** [UploadBufferManager]: the staging pool.  A reservation answers with a
    buffer (null when the pool cannot satisfy it) and an offset. *)
Record UploadBufferManager := MakeUploadBufferManager {
  pool_state : Type;
  pool_current : pool_state;
  pool_reserve : pool_state -> N -> N -> BindBufferInfo * pool_state
}.

Definition getTextureUploadWriter (m : UploadBufferManager) (requiredBytes requiredAlignment : N)
  : BindBufferInfo * UploadBufferManager :=
  let '(info, st) := pool_reserve m (pool_current m) requiredBytes requiredAlignment in
  (info, MakeUploadBufferManager (pool_state m) st (pool_reserve m)).

Record Recorder := MakeRecorder {
  recorder_caps : Caps;
  recorder_uploadBufferManager : UploadBufferManager
}.

(** [ResourceProvider], with the instantiation state of the proxies it
    serves.  [TextureProxy::InstantiateIfNotLazy] is not among the sources:
    it answers whether the proxy is usable and may change the provider. *)
Record ResourceProvider := MakeResourceProvider {
  provider_state : Type;
  provider_current : provider_state;
  provider_instantiate : provider_state -> TextureProxy -> bool * provider_state
}.

Definition InstantiateIfNotLazy (rp : ResourceProvider) (proxy : TextureProxy)
  : bool * ResourceProvider :=
  let '(ok, st) := provider_instantiate rp (provider_current rp) proxy in
  (ok, MakeResourceProvider (provider_state rp) st (provider_instantiate rp)).

(** [ConditionalUploadContext]: the interface with [needsUpload] and
    [uploadSubmitted]; an implementation brings its own state. *)
Record ConditionalUploadContext := MakeConditionalUploadContext {
  cond_state : Type;
  cond_current : cond_state;
  cond_needsUpload : cond_state -> Context -> bool * cond_state;
  cond_uploadSubmitted : cond_state -> cond_state
}.

Definition needsUpload (c : ConditionalUploadContext) (context : Context)
  : bool * ConditionalUploadContext :=
  let '(answer, st) := cond_needsUpload c (cond_current c) context in
  (answer, MakeConditionalUploadContext (cond_state c) st (cond_needsUpload c)
                                        (cond_uploadSubmitted c)).

Definition uploadSubmitted (c : ConditionalUploadContext) : ConditionalUploadContext :=
  MakeConditionalUploadContext (cond_state c) (cond_uploadSubmitted c (cond_current c))
                               (cond_needsUpload c) (cond_uploadSubmitted c).

(** ** [UploadInstance] *)

Record UploadInstance := MakeUploadInstance {
  fBuffer : option Buffer;
  fBytesPerPixel : N;
  fTextureProxy : option TextureProxy;
  fCopyData : list BufferTextureCopyData;
  fConditionalContext : option ConditionalUploadContext
}.

(** The default-constructed instance, which every failed plan returns. *)
Definition invalid_instance : UploadInstance :=
  MakeUploadInstance None 0 None [] None.

(** Modelled from the spec: [UploadInstance::isValid] (UploadTask.h is not
    among the sources).  "Validity = destinationTexture is non-null." *)
Definition isValid (inst : UploadInstance) : bool :=
  match fTextureProxy inst with Some _ => true | None => false end.

(** What a factory leaves behind: the instance, the calls made on the
    reservation's writer, and the buffer manager after the call. *)
Record Planned := MakePlanned {
  planned_instance : UploadInstance;
  planned_writes : list WriterCall;
  planned_bufferManager : UploadBufferManager
}.

Record ReplayTargetData := MakeReplayTargetData {
  fTarget : option Texture;
  fTranslation : SkIVector
}.

(** The calls [addCommand] makes on its collaborators, in order. *)
Inductive EmissionCall :=
| call_needsUpload (answer : bool)
| call_copyBufferToTexture (buffer : option Buffer) (dst : option Texture)
                           (copyData : list BufferTextureCopyData)
| call_uploadSubmitted.

Definition is_copy (c : EmissionCall) : bool :=
  match c with call_copyBufferToTexture _ _ _ => true | _ => false end.
Definition is_submitted (c : EmissionCall) : bool :=
  match c with call_uploadSubmitted => true | _ => false end.
Definition is_query (c : EmissionCall) : bool :=
  match c with call_needsUpload _ => true | _ => false end.

Definition count_calls (f : EmissionCall -> bool) (calls : list EmissionCall) : nat :=
  length (filter f calls).

Record UploadList := MakeUploadList { fInstances : list UploadInstance }.

Record UploadTask := MakeUploadTask { task_fInstances : list UploadInstance }.

(** ** Fixtures used by the closed examples *)

(** Block-grid dimensions of a format with 4x4 blocks; pixels themselves
    when there is no compression. *)
Definition blocks_4x4 (c : SkTextureCompressionType) (d : SkISize) : SkISize :=
  match c with
  | kNone => d
  | _ => MakeISize ((fWidth d + 3) / 4) ((fHeight d + 3) / 4)
  end.

Definition caps_align4 : Caps :=
  MakeCaps 4 (fun rowBytes => SkAlignTo rowBytes 4)
           (fun dst _ _ => (dst, false)) false.

(** A device with transfer alignment 2 that leaves row bytes as they are. *)
Definition caps_transfer2 : Caps :=
  MakeCaps 2 (fun rowBytes => rowBytes) (fun dst _ _ => (dst, false)) false.

Definition caps_rgb888 : Caps :=
  MakeCaps 4 (fun rowBytes => SkAlignTo rowBytes 4)
           (fun _ _ _ => (kRGB_888x_SkColorType, true)) false.

Definition bytesPerPixel_4 (c : SkColorType) : N :=
  match c with kUnknown_SkColorType => 0%N | _ => 4%N end.

Definition tight_rowBytes (info : SkImageInfo) : N :=
  size_mul (to_size_t (fWidth (imageDimensions info))) 4.

Definition rgba_premul : SkColorInfo := MakeColorInfo (kOther_SkColorType 4) 2 None.
Definition rgbx_opaque : SkColorInfo := MakeColorInfo kRGB_888x_SkColorType 1 None.

(** A pool that hands out consecutive aligned regions of buffer 1, and one
    that has nothing left. *)
Definition bump_pool : UploadBufferManager :=
  MakeUploadBufferManager N 0%N
    (fun next size alignment =>
       let start := align_up next alignment in
       (MakeBindBufferInfo (Some 1%N) start, (start + size)%N)).

Definition exhausted_pool : UploadBufferManager :=
  MakeUploadBufferManager unit tt (fun st _ _ => (MakeBindBufferInfo None 0, st)).

Definition recorder_rgba : Recorder := MakeRecorder caps_align4 bump_pool.
Definition recorder_rgb888 : Recorder := MakeRecorder caps_rgb888 bump_pool.
Definition recorder_exhausted : Recorder := MakeRecorder caps_align4 exhausted_pool.

Definition texture_4x4 : TextureProxy :=
  MakeTextureProxy (MakeISize 4 4) (MakeTextureInfo kNone false) (Some 5%N).
Definition texture_5x5 : TextureProxy :=
  MakeTextureProxy (MakeISize 5 5) (MakeTextureInfo kNone true) (Some 7%N).
Definition texture_8x7 : TextureProxy :=
  MakeTextureProxy (MakeISize 8 7) (MakeTextureInfo kNone false) (Some 9%N).

Definition levels_4x4 : list MipLevel := [MakeMipLevel (Some 4096%N) 16].
Definition levels_5x5 : list MipLevel :=
  [MakeMipLevel (Some 4096%N) 20; MakeMipLevel (Some 8192%N) 8;
   MakeMipLevel (Some 8448%N) 4].

(** A conditional context that always wants the upload and counts the
    notifications it gets. *)
Definition always_needed : ConditionalUploadContext :=
  MakeConditionalUploadContext nat 0%nat (fun st _ => (true, st)) S.

(** Scenario 4 of the spec: one descriptor with rect [2,2,6,6] on a
    destination of 8x7, replayed onto that destination. *)
Definition replay_instance : UploadInstance :=
  MakeUploadInstance (Some 1%N) 4 (Some texture_8x7)
                     [MakeCopyData 64 16 (MakeLTRB 2 2 6 6) 0] None.

Definition replay_by (dx dy : Z) : ReplayTargetData :=
  MakeReplayTargetData (Some 9%N) (MakeIVector dx dy).

Definition conditional_instance : UploadInstance :=
  MakeUploadInstance (Some 1%N) 4 (Some texture_8x7)
                     [MakeCopyData 64 16 (MakeLTRB 2 2 6 6) 0] (Some always_needed).

Definition record_elsewhere : ReplayTargetData :=
  MakeReplayTargetData None (MakeIVector 0 0).

Definition caps_no_write : Caps :=
  MakeCaps 4 (fun rowBytes => SkAlignTo rowBytes 4)
           (fun _ _ _ => (kUnknown_SkColorType, false)) false.

Definition recorder_no_write : Recorder := MakeRecorder caps_no_write bump_pool.

(** A provider that keeps the list of the proxies it was asked for and
    accepts those that are mipmapped. *)
Definition logging_provider : ResourceProvider :=
  MakeResourceProvider (list TextureProxy) []
    (fun asked proxy => (mipmapped (textureInfo proxy), asked ++ [proxy])).

Definition upload_to (proxy : option TextureProxy) : UploadInstance :=
  MakeUploadInstance (Some 1%N) 4 proxy [MakeCopyData 0 16 (MakeLTRB 0 0 4 4) 0] None.

(** A BC1 texture of 8x8 pixels with its full mip chain: blocks of 4x4
    pixels in 8 bytes, levels of 32, 8, 8 and 8 bytes. *)
Definition texture_bc1_8x8 : TextureProxy :=
  MakeTextureProxy (MakeISize 8 8) (MakeTextureInfo kBC1_RGB8_UNORM true) (Some 11%N).

Definition offsets_of_bc1_8x8 (c : SkTextureCompressionType) (d : SkISize) (mip : bool)
  : list N :=
  if mip then [0; 32; 40; 48]%N else [0%N].

Definition block_size_8 (c : SkTextureCompressionType) : N := 8.

Definition row_bytes_4x4 (c : SkTextureCompressionType) (width : Z) : N :=
  (to_size_t ((width + 3) / 4) * 8)%N.

Definition pixels_of_blocks_4x4 (c : SkTextureCompressionType) (d : SkISize) : SkISize :=
  MakeISize ((fWidth d + 3) / 4 * 4) ((fHeight d + 3) / 4 * 4).

Definition caps_full_blocks : Caps :=
  MakeCaps 4 (fun rowBytes => SkAlignTo rowBytes 4)
           (fun dst _ _ => (dst, false)) true.

Definition recorder_full_blocks : Recorder := MakeRecorder caps_full_blocks bump_pool.

(** A conditional context that never wants the upload and counts how often
    it was asked. *)
Definition never_needed : ConditionalUploadContext :=
  MakeConditionalUploadContext nat 0%nat (fun st _ => (false, S st)) (fun st => st).

Definition asked (times : nat) : ConditionalUploadContext :=
  MakeConditionalUploadContext nat times (fun st _ => (false, S st)) (fun st => st).

Definition skipped_instance : UploadInstance :=
  MakeUploadInstance (Some 1%N) 4 (Some texture_8x7)
                     [MakeCopyData 64 16 (MakeLTRB 2 2 6 6) 0] (Some never_needed).

Section UploadTask.

(** [CompressedDimensionsInBlocks] of src/core/SkCompressedDataUtils.h, which
    is not among the sources: the block grid of a level, per compression
    type.  It stays a parameter, as do the other helpers declared below. *)
Variable CompressedDimensionsInBlocks : SkTextureCompressionType -> SkISize -> SkISize.

(** ** The layout planner *)

(** [std::max(1, d / 2)] on [int]. *)
Definition half_dimension (d : Z) : Z := Z.max 1 (Z.quot d 2).

Definition next_level_dimensions (d : SkISize) : SkISize :=
  MakeISize (half_dimension (fWidth d)) (half_dimension (fHeight d)).

Section Planner.

Variable caps : Caps.
Variable bytesPerBlock : N.
Variable compressionType : SkTextureCompressionType.

Definition minTransferBufferAlignment : N :=
  N.max bytesPerBlock (requiredTransferBufferAlignment caps).

(** [caps->getAlignedTextureDataRowBytes(compressedBlockDimensions.width() * bytesPerBlock)]. *)
Definition alignedBytesPerRow_of (levelDimensions : SkISize) : N :=
  let compressedBlockDimensions := CompressedDimensionsInBlocks compressionType levelDimensions in
  getAlignedTextureDataRowBytes caps
    (size_mul (to_size_t (fWidth compressedBlockDimensions)) bytesPerBlock).

(** Bytes of the base level before alignment (line 70): the aligned row bytes
    times [baseDimensions.height()]. *)
Definition base_level_bytes (baseDimensions : SkISize) : N :=
  size_mul (alignedBytesPerRow_of baseDimensions) (to_size_t (fHeight baseDimensions)).

(** Bytes of a later level before alignment (line 80): the aligned row bytes
    times [compressedBlockDimensions.height()]. *)
Definition mip_level_bytes (levelDimensions : SkISize) : N :=
  let compressedBlockDimensions := CompressedDimensionsInBlocks compressionType levelDimensions in
  size_mul (alignedBytesPerRow_of levelDimensions)
           (to_size_t (fHeight compressedBlockDimensions)).

(** The loop of lines 74-86, [n] iterations left. *)
Fixpoint planner_loop (n : nat) (levelDimensions : SkISize) (combinedBufferSize : N)
         (levelOffsetsAndRowBytes : list (N * N)) : N * list (N * N) :=
  match n with
  | O => (combinedBufferSize, levelOffsetsAndRowBytes)
  | S n' =>
      let levelDimensions := next_level_dimensions levelDimensions in
      let alignedBytesPerRow := alignedBytesPerRow_of levelDimensions in
      let alignedSize := SkAlignTo (mip_level_bytes levelDimensions) minTransferBufferAlignment in
      planner_loop n' levelDimensions
                   (size_add combinedBufferSize alignedSize)
                   (levelOffsetsAndRowBytes ++ [(combinedBufferSize, alignedBytesPerRow)])
  end.

(** [compute_combined_buffer_size]: the pair (total size, required alignment)
    and the filled [levelOffsetsAndRowBytes]. *)
Definition compute_combined_buffer_size (mipLevelCount : Z) (baseDimensions : SkISize)
  : (N * N) * list (N * N) :=
  let alignedBytesPerRow := alignedBytesPerRow_of baseDimensions in
  let combinedBufferSize := SkAlignTo (base_level_bytes baseDimensions) minTransferBufferAlignment in
  let '(combinedBufferSize, levelOffsetsAndRowBytes) :=
    planner_loop (Z.to_nat (mipLevelCount - 1)) baseDimensions combinedBufferSize
                 [(0%N, alignedBytesPerRow)] in
  ((combinedBufferSize, minTransferBufferAlignment), levelOffsetsAndRowBytes).

(** The dimensions of the [n] levels after the one of dimensions [d]. *)
Fixpoint mip_chain (n : nat) (d : SkISize) : list SkISize :=
  match n with
  | O => []
  | S n' => let d' := next_level_dimensions d in d' :: mip_chain n' d'
  end.

(** Bytes of every level before alignment, base level first. *)
Definition level_bytes (mipLevelCount : Z) (baseDimensions : SkISize) : list N :=
  base_level_bytes baseDimensions
  :: map mip_level_bytes (mip_chain (Z.to_nat (mipLevelCount - 1)) baseDimensions).

(** The size the planner adds to the running total for each level. *)
Definition level_sizes (mipLevelCount : Z) (baseDimensions : SkISize) : list N :=
  map (fun b => SkAlignTo b minTransferBufferAlignment) (level_bytes mipLevelCount baseDimensions).

(** What the spec's formula gives for a level: the aligned row bytes times the
    block-grid height, aligned. *)
Definition block_grid_level_size (levelDimensions : SkISize) : N :=
  SkAlignTo (mip_level_bytes levelDimensions) minTransferBufferAlignment.

(** The upload fits [size_t]: the aligned level sizes, added as natural
    numbers, stay below 2^64. *)
Definition fits_size_t (mipLevelCount : Z) (baseDimensions : SkISize) : Prop :=
  (sumN (map (fun b => align_up b minTransferBufferAlignment)
             (level_bytes mipLevelCount baseDimensions)) < size_t_range)%N.

End Planner.

(** ** [UploadInstance::Make] *)

(** [SkColorTypeBytesPerPixel] of SkImageInfo, not among the sources. *)
Variable SkColorTypeBytesPerPixel : SkColorType -> N.

(** [temp.rowBytes()] of the [SkAutoPixmapStorage] allocated for an image
    info. *)
Variable pixmap_rowBytes : SkImageInfo -> N.

Section MakeLevels.

Variable srcColorInfo dstColorInfo : SkColorInfo.
Variable isRGB888Format needsConversion : bool.
Variable bpp : N.
Variable levelOffsetsAndRowBytes : list (N * N).
Variable baseOffset : N.
Variable dstRect : SkIRect.

(** The packing call of one level (lines 178-214). *)
Definition pack_level (level : MipLevel) (mipOffset dstRowBytes : N)
           (currentWidth currentHeight : Z) : WriterCall :=
  let trimRowBytes := size_mul (to_size_t currentWidth) bpp in
  let srcRowBytes := fRowBytes level in
  let src := fPixels level in
  let dims := MakeISize currentWidth currentHeight in
  let srcImageInfo := MakeImageInfo dims srcColorInfo in
  let dstImageInfo := MakeImageInfo dims dstColorInfo in
  if isRGB888Format then
    if needsConversion then
      writer_writeRGBFromRGBx mipOffset
        (ConvertedRows dstImageInfo srcImageInfo src srcRowBytes)
        (pixmap_rowBytes dstImageInfo) dstRowBytes currentWidth currentHeight
    else
      writer_writeRGBFromRGBx mipOffset (SourceRows src) srcRowBytes dstRowBytes
                              currentWidth currentHeight
  else if needsConversion then
    writer_convertAndWrite mipOffset srcImageInfo src srcRowBytes dstImageInfo dstRowBytes
  else
    writer_write mipOffset src srcRowBytes dstRowBytes trimRowBytes currentHeight.

(** The loop of lines 170-228 over [levels[currentMipLevel ...]]. *)
Fixpoint make_levels (levels : list MipLevel) (currentMipLevel : nat)
         (currentWidth currentHeight : Z)
  : list BufferTextureCopyData * list WriterCall :=
  match levels with
  | [] => ([], [])
  | level :: rest =>
      let '(mipOffset, dstRowBytes) := nth currentMipLevel levelOffsetsAndRowBytes (0%N, 0%N) in
      let call := pack_level level mipOffset dstRowBytes currentWidth currentHeight in
      let copy :=
        MakeCopyData (size_add baseOffset mipOffset) dstRowBytes
                     (MakeLTRB (fLeft dstRect) (fTop dstRect)
                               (fLeft dstRect + currentWidth) (fTop dstRect + currentHeight))
                     (N.of_nat currentMipLevel) in
      let '(copies, calls) :=
        make_levels rest (S currentMipLevel)
                    (half_dimension currentWidth) (half_dimension currentHeight) in
      (copy :: copies, call :: calls)
  end.

End MakeLevels.

Definition has_null_pixels (levels : list MipLevel) : bool :=
  existsb (fun level => match fPixels level with None => true | Some _ => false end) levels.

(** What every early [return {}] gives: the invalid instance, nothing
    written, the buffer manager as it stands. *)
Definition no_upload (m : UploadBufferManager) : Planned :=
  MakePlanned invalid_instance [] m.

Definition Make (recorder : Recorder) (textureProxy : TextureProxy)
           (srcColorInfo dstColorInfo : SkColorInfo) (levels : list MipLevel)
           (dstRect : SkIRect) (condContext : option ConditionalUploadContext) : Planned :=
  let caps := recorder_caps recorder in
  let bufferMgr := recorder_uploadBufferManager recorder in
  let mipLevelCount := length levels in
  if rect_isEmpty dstRect then no_upload bufferMgr
  else if Nat.eqb mipLevelCount 1
          && match fPixels (nth 0 levels (MakeMipLevel None 0)) with
             | None => true | Some _ => false end
  then no_upload bufferMgr
  else if has_null_pixels levels then no_upload bufferMgr
  else
    let '(supportedColorType, isRGB888Format) :=
      supportedWritePixelsColorType caps (colorType dstColorInfo)
                                    (textureInfo textureProxy) (colorType srcColorInfo) in
    if is_unknown_color_type supportedColorType then no_upload bufferMgr
    else
      let bpp := if isRGB888Format then 3%N else SkColorTypeBytesPerPixel supportedColorType in
      let '((combinedBufferSize, minAlignment), levelOffsetsAndRowBytes) :=
        compute_combined_buffer_size caps bpp kNone (Z.of_nat mipLevelCount)
                                     (rect_size dstRect) in
      let '(bufferInfo, bufferMgr) :=
        getTextureUploadWriter bufferMgr combinedBufferSize minAlignment in
      match bufferInfo_fBuffer bufferInfo with
      | None => no_upload bufferMgr
      | Some buffer =>
          let baseOffset := bufferInfo_fOffset bufferInfo in
          let needsConversion := negb (SkColorInfo_eqb srcColorInfo dstColorInfo) in
          let '(copyData, writes) :=
            make_levels srcColorInfo dstColorInfo isRGB888Format needsConversion bpp
                        levelOffsetsAndRowBytes baseOffset dstRect
                        levels 0 (rect_width dstRect) (rect_height dstRect) in
          MakePlanned (MakeUploadInstance (Some buffer) bpp (Some textureProxy)
                                          copyData condContext)
                      writes bufferMgr
      end.

(** The colour type and the flag [Make] resolves (lines 135-140), the bytes
    per pixel it derives from them (line 145) and the reservation it asks
    the staging pool for (lines 148-158). *)
Definition resolved_write_format (recorder : Recorder) (textureProxy : TextureProxy)
           (srcColorInfo dstColorInfo : SkColorInfo) : SkColorType * bool :=
  supportedWritePixelsColorType (recorder_caps recorder) (colorType dstColorInfo)
                                (textureInfo textureProxy) (colorType srcColorInfo).

Definition resolved_bytesPerPixel (recorder : Recorder) (textureProxy : TextureProxy)
           (srcColorInfo dstColorInfo : SkColorInfo) : N :=
  let format := resolved_write_format recorder textureProxy srcColorInfo dstColorInfo in
  if snd format then 3%N else SkColorTypeBytesPerPixel (fst format).

Definition requested_reservation (recorder : Recorder) (textureProxy : TextureProxy)
           (srcColorInfo dstColorInfo : SkColorInfo) (levels : list MipLevel)
           (dstRect : SkIRect) : BindBufferInfo * UploadBufferManager :=
  let plan :=
    compute_combined_buffer_size
      (recorder_caps recorder)
      (resolved_bytesPerPixel recorder textureProxy srcColorInfo dstColorInfo)
      kNone (Z.of_nat (length levels)) (rect_size dstRect) in
  getTextureUploadWriter (recorder_uploadBufferManager recorder)
                         (fst (fst plan)) (snd (fst plan)).

(** Half of a dimension rounded up, at least 1: the halving the spec words
    for the destination rects of a mip chain. *)
Definition half_rounded_up (d : Z) : Z := Z.max 1 ((d + 1) / 2).

Definition no_copy : BufferTextureCopyData := MakeCopyData 0 0 (MakeLTRB 0 0 0 0) 0.

(** ** [UploadInstance::MakeCompressed] *)

(** [SkCompressedDataSize]: the byte offset of every level of the blob (the
    size it returns is only compared with [dataSize] in an assertion). *)
Variable SkCompressedDataSize_offsets : SkTextureCompressionType -> SkISize -> bool -> list N.
Variable SkCompressedBlockSize : SkTextureCompressionType -> N.
Variable CompressedRowBytes : SkTextureCompressionType -> Z -> N.
Variable CompressedDimensions : SkTextureCompressionType -> SkISize -> SkISize.

(** [SkAlignTo] at type [int32_t] with an [int] alignment. *)
Definition SkAlignTo_int (x alignment : Z) : Z :=
  Z.of_N (SkAlignTo (to_size_t x) (to_size_t alignment)).

Section MakeCompressedLevels.

Variable caps : Caps.
Variable compression : SkTextureCompressionType.
Variable data : N.
Variable levelOffsetsAndRowBytes : list (N * N).
Variable baseOffset : N.

(** The loop of lines 288-317 over [srcMipOffsets[currentMipLevel ...]]. *)
Fixpoint make_compressed_levels (srcMipOffsets : list N) (currentMipLevel : nat)
         (currentWidth currentHeight : Z)
  : list BufferTextureCopyData * list WriterCall :=
  match srcMipOffsets with
  | [] => ([], [])
  | srcMipOffset :: rest =>
      let blockDimensions :=
        CompressedDimensionsInBlocks compression (MakeISize currentWidth currentHeight) in
      let blockHeight := fHeight blockDimensions in
      let trimRowBytes := CompressedRowBytes compression currentWidth in
      let srcRowBytes := trimRowBytes in
      let '(dstMipOffset, dstRowBytes) :=
        nth currentMipLevel levelOffsetsAndRowBytes (0%N, 0%N) in
      let src := Some (data + srcMipOffset)%N in
      let call := writer_write dstMipOffset src srcRowBytes dstRowBytes trimRowBytes
                               blockHeight in
      let oneBlockDims := CompressedDimensions compression (MakeISize 1 1) in
      let copyWidth :=
        if fullCompressedUploadSizeMustAlignToBlockDims caps
        then SkAlignTo_int currentWidth (fWidth oneBlockDims) else currentWidth in
      let copyHeight :=
        if fullCompressedUploadSizeMustAlignToBlockDims caps
        then SkAlignTo_int currentHeight (fHeight oneBlockDims) else currentHeight in
      let copy :=
        MakeCopyData (size_add baseOffset dstMipOffset) dstRowBytes
                     (MakeLTRB 0 0 copyWidth copyHeight) (N.of_nat currentMipLevel) in
      let '(copies, calls) :=
        make_compressed_levels rest (S currentMipLevel)
                               (half_dimension currentWidth) (half_dimension currentHeight) in
      (copy :: copies, call :: calls)
  end.

End MakeCompressedLevels.

Definition MakeCompressed (recorder : Recorder) (textureProxy : TextureProxy)
           (data : pointer) (dataSize : N) : Planned :=
  let bufferMgr := recorder_uploadBufferManager recorder in
  match data with
  | None => no_upload bufferMgr
  | Some data =>
      let texInfo := textureInfo textureProxy in
      let caps := recorder_caps recorder in
      let compression := compressionType texInfo in
      if compression_is_none compression then no_upload bufferMgr
      else
        let srcMipOffsets :=
          SkCompressedDataSize_offsets compression (dimensions textureProxy)
                                       (mipmapped texInfo) in
        let mipLevelCount := length srcMipOffsets in
        let bytesPerBlock := SkCompressedBlockSize compression in
        let '((combinedBufferSize, minAlignment), levelOffsetsAndRowBytes) :=
          compute_combined_buffer_size caps bytesPerBlock compression
                                       (Z.of_nat mipLevelCount) (dimensions textureProxy) in
        let '(bufferInfo, bufferMgr) :=
          getTextureUploadWriter bufferMgr combinedBufferSize minAlignment in
        match bufferInfo_fBuffer bufferInfo with
        | None => no_upload bufferMgr
        | Some buffer =>
            let baseOffset := bufferInfo_fOffset bufferInfo in
            let '(copyData, writes) :=
              make_compressed_levels caps compression data levelOffsetsAndRowBytes baseOffset
                                     srcMipOffsets 0
                                     (fWidth (dimensions textureProxy))
                                     (fHeight (dimensions textureProxy)) in
            MakePlanned (MakeUploadInstance (Some buffer) bytesPerBlock (Some textureProxy)
                                            copyData None)
                        writes bufferMgr
        end
  end.

(** ** [UploadInstance::prepareResources] and [UploadInstance::addCommand] *)

Definition UploadInstance_prepareResources (inst : UploadInstance) (rp : ResourceProvider)
  : bool * ResourceProvider :=
  match fTextureProxy inst with
  | None => (false, rp)
  | Some proxy =>
      let '(ok, rp) := InstantiateIfNotLazy rp proxy in
      if ok then (true, rp) else (false, rp)
  end.

(** The copy of the replay branch (lines 357-373): [None] when the translated
    rect misses the destination. *)
Definition replay_copy (bytesPerPixel : N) (bounds : SkISize) (translation : SkIVector)
           (copyData : BufferTextureCopyData) : option BufferTextureCopyData :=
  let dstRect := rect_offset (fRect copyData) translation in
  match rect_intersect dstRect (rect_MakeSize bounds) with
  | None => None
  | Some croppedDstRect =>
      Some (MakeCopyData
              (size_add (fBufferOffset copyData)
                 (size_add
                    (size_mul (to_size_t (fTop croppedDstRect - fTop dstRect))
                              (fBufferRowBytes copyData))
                    (size_mul (to_size_t (fLeft croppedDstRect - fLeft dstRect))
                              bytesPerPixel)))
              (fBufferRowBytes copyData) croppedDstRect (fMipLevel copyData))
  end.

Definition option_N_eqb (a b : option N) : bool :=
  match a, b with
  | None, None => true
  | Some m, Some n => N.eqb m n
  | _, _ => false
  end.

(** Lines 348-374.  [Some (Some call)]: the [copyBufferToTexture] call made;
    [Some None]: the [return] of line 363, nothing emitted; [None]: the
    indexing of an empty [fCopyData], which the assertion of line 357
    excludes. *)
Definition emit_copy (inst : UploadInstance) (proxy : TextureProxy)
           (replayData : ReplayTargetData) : option (option EmissionCall) :=
  if negb (option_N_eqb (texture proxy) (fTarget replayData)) then
    Some (Some (call_copyBufferToTexture (fBuffer inst) (texture proxy) (fCopyData inst)))
  else
    match fCopyData inst with
    | [] => None
    | copyData :: _ =>
        match replay_copy (fBytesPerPixel inst) (dimensions proxy)
                          (fTranslation replayData) copyData with
        | None => Some None
        | Some transformedCopyData =>
            Some (Some (call_copyBufferToTexture (fBuffer inst) (texture proxy)
                                                 [transformedCopyData]))
        end
    end.

Definition with_context (inst : UploadInstance) (c : option ConditionalUploadContext)
  : UploadInstance :=
  MakeUploadInstance (fBuffer inst) (fBytesPerPixel inst) (fTextureProxy inst)
                     (fCopyData inst) c.

(** [addCommand]: the instance afterwards (its conditional context may have
    changed state) and the calls made on the context and on the command
    buffer, in order.  [None] stands for the dereference of a null
    [fTextureProxy] or of an empty [fCopyData], which the assertions of
    lines 342 and 357 exclude. *)
Definition addCommand (inst : UploadInstance) (context : Context)
           (replayData : ReplayTargetData) : option (UploadInstance * list EmissionCall) :=
  match fTextureProxy inst with
  | None => None
  | Some proxy =>
      match fConditionalContext inst with
      | Some cond =>
          let '(needed, cond) := needsUpload cond context in
          if negb needed then
            Some (with_context inst (Some cond), [call_needsUpload needed])
          else
            match emit_copy inst proxy replayData with
            | None => None
            | Some None =>
                Some (with_context inst (Some cond), [call_needsUpload needed])
            | Some (Some copy) =>
                Some (with_context inst (Some (uploadSubmitted cond)),
                      [call_needsUpload needed; copy; call_uploadSubmitted])
            end
      | None =>
          match emit_copy inst proxy replayData with
          | None => None
          | Some None => Some (inst, [])
          | Some (Some copy) => Some (inst, [copy])
          end
      end
  end.

(** Whether the emission goes past the check of line 344: there is no
    conditional context, or its [needsUpload] answers yes. *)
Definition upload_needed (inst : UploadInstance) (context : Context) : bool :=
  match fConditionalContext inst with
  | None => true
  | Some cond => fst (needsUpload cond context)
  end.

(** ** [UploadList] and [UploadTask] *)

Definition recordUpload (uploads : UploadList) (recorder : Recorder) (textureProxy : TextureProxy)
           (srcColorInfo dstColorInfo : SkColorInfo) (levels : list MipLevel)
           (dstRect : SkIRect) (condContext : option ConditionalUploadContext)
  : bool * UploadList * Planned :=
  let planned := Make recorder textureProxy srcColorInfo dstColorInfo levels dstRect
                      condContext in
  let instance := planned_instance planned in
  if negb (isValid instance) then (false, uploads, planned)
  else (true, MakeUploadList (fInstances uploads ++ [instance]), planned).

Definition UploadTask_Make_list (uploadList : UploadList) : UploadTask :=
  MakeUploadTask (fInstances uploadList).

Definition UploadTask_Make (instance : UploadInstance) : option UploadTask :=
  if negb (isValid instance) then None else Some (MakeUploadTask [instance]).

(** The loop of [UploadTask::prepareResources] over [fInstances[i ...]]. *)
Fixpoint prepare_instances (instances : list UploadInstance) (rp : ResourceProvider)
  : bool * ResourceProvider :=
  match instances with
  | [] => (true, rp)
  | inst :: rest =>
      let '(ok, rp) := UploadInstance_prepareResources inst rp in
      if negb ok then (false, rp) else prepare_instances rest rp
  end.

Definition UploadTask_prepareResources (task : UploadTask) (rp : ResourceProvider)
  : bool * ResourceProvider :=
  prepare_instances (task_fInstances task) rp.

(** Every instance of the list has a texture proxy that
    [InstantiateIfNotLazy] accepts, one after the other, taking the resource
    provider from [rp] to [rp']. *)
Inductive PreparedAll : list UploadInstance -> ResourceProvider -> ResourceProvider -> Prop :=
| PreparedAll_nil (rp : ResourceProvider) : PreparedAll [] rp rp
| PreparedAll_cons (inst : UploadInstance) (rest : list UploadInstance)
                   (proxy : TextureProxy) (rp rp1 rp2 : ResourceProvider) :
    fTextureProxy inst = Some proxy ->
    InstantiateIfNotLazy rp proxy = (true, rp1) ->
    PreparedAll rest rp1 rp2 ->
    PreparedAll (inst :: rest) rp rp2.

(** The instance has no texture proxy, or [InstantiateIfNotLazy] refuses it,
    leaving the resource provider at [rp']. *)
Definition PrepareFails (inst : UploadInstance) (rp rp' : ResourceProvider) : Prop :=
  (fTextureProxy inst = None /\ rp' = rp) \/
  (exists proxy, fTextureProxy inst = Some proxy /\
                 InstantiateIfNotLazy rp proxy = (false, rp')).

(** The loop of [UploadTask::addCommands] over [fInstances[i ...]]: the
    instances afterwards and the calls made, in order.  [None] as for
    [addCommand]. *)
Fixpoint add_commands (instances : list UploadInstance) (context : Context)
         (replayData : ReplayTargetData)
  : option (list UploadInstance * list EmissionCall) :=
  match instances with
  | [] => Some ([], [])
  | inst :: rest =>
      match addCommand inst context replayData with
      | None => None
      | Some (inst', calls) =>
          match add_commands rest context replayData with
          | None => None
          | Some (rest', calls') => Some (inst' :: rest', calls ++ calls')
          end
      end
  end.

(** [UploadTask::addCommands]: it returns true once the loop is through. *)
Definition UploadTask_addCommands (task : UploadTask) (context : Context)
           (replayData : ReplayTargetData)
  : option (bool * UploadTask * list EmissionCall) :=
  match add_commands (task_fInstances task) context replayData with
  | None => None
  | Some (instances, calls) => Some (true, MakeUploadTask instances, calls)
  end.

(** The reservation [MakeCompressed] asks the staging pool for (lines
    264-277). *)
Definition compressed_reservation (recorder : Recorder) (textureProxy : TextureProxy)
  : BindBufferInfo * UploadBufferManager :=
  let texInfo := textureInfo textureProxy in
  let compression := compressionType texInfo in
  let srcMipOffsets :=
    SkCompressedDataSize_offsets compression (dimensions textureProxy) (mipmapped texInfo) in
  let plan :=
    compute_combined_buffer_size (recorder_caps recorder) (SkCompressedBlockSize compression)
                                 compression (Z.of_nat (length srcMipOffsets))
                                 (dimensions textureProxy) in
  getTextureUploadWriter (recorder_uploadBufferManager recorder)
                         (fst (fst plan)) (snd (fst plan)).

Definition no_write : WriterCall := writer_write 0 None 0 0 0 0.

(** The width or height [MakeCompressed] gives a copy rect (lines 302-308):
    rounded up to the block dimension when the device wants full blocks. *)
Definition compressed_copy_extent (caps : Caps) (extent oneBlockExtent : Z) : Z :=
  if fullCompressedUploadSizeMustAlignToBlockDims caps
  then SkAlignTo_int extent oneBlockExtent else extent.

(** The buffer offset the spec words for a cropped replay copy when its
    "original" top and left are those of the descriptor's own rect: the
    descriptor's offset plus (cropped top - original top) * rowBytes +
    (cropped left - original left) * bytesPerPixel. *)
Definition offset_from_descriptor_rect (bytesPerPixel : N) (copyData : BufferTextureCopyData)
           (croppedDstRect : SkIRect) : N :=
  (fBufferOffset copyData
   + Z.to_N (fTop croppedDstRect - fTop (fRect copyData)) * fBufferRowBytes copyData
   + Z.to_N (fLeft croppedDstRect - fLeft (fRect copyData)) * bytesPerPixel)%N.

(** A rect lies inside another. *)
Definition rect_inside (inner outer : SkIRect) : Prop :=
  (fLeft outer <= fLeft inner)%Z /\ (fTop outer <= fTop inner)%Z /\
  (fRight inner <= fRight outer)%Z /\ (fBottom inner <= fBottom outer)%Z.

(** What [addCommand] must find to run: a texture proxy and at least one copy
    descriptor (the assertions of lines 342 and 357). *)
Definition emittable (inst : UploadInstance) : Prop :=
  fTextureProxy inst <> None /\ fCopyData inst <> [].

(** * Properties *)

(** ** Arithmetic of [size_t] and of alignment *)

Lemma align_up_divide (x a : N) : (a | align_up x a)%N.
Proof. unfold align_up. exists ((x + a - 1) / a)%N. reflexivity. Qed.

Lemma SkAlignTo_exact (x a : N) :
  (align_up x a < size_t_range)%N -> SkAlignTo x a = align_up x a.
Proof. intros H. unfold SkAlignTo. now apply N.mod_small. Qed.

Lemma size_add_exact (a b : N) :
  (a + b < size_t_range)%N -> size_add a b = (a + b)%N.
Proof. intros H. unfold size_add. now apply N.mod_small. Qed.

Lemma sumN_app (l1 l2 : list N) : sumN (l1 ++ l2) = (sumN l1 + sumN l2)%N.
Proof. induction l1 as [|x l1 IH]; simpl; [reflexivity | rewrite IH; lia]. Qed.

Lemma sumN_divide (a : N) (l : list N) :
  Forall (fun s => (a | s)%N) l -> (a | sumN l)%N.
Proof.
  induction 1 as [|s l Hs _ IH]; simpl.
  - apply N.divide_0_r.
  - now apply N.divide_add_r.
Qed.

Lemma running_totals_length (start : N) (sizes : list N) :
  length (running_totals start sizes) = length sizes.
Proof. revert start. induction sizes as [|s r IH]; intros; simpl; [|rewrite IH]; reflexivity. Qed.

Lemma running_totals_divide (a start : N) (sizes : list N) :
  (a | start)%N -> Forall (fun s => (a | s)%N) sizes ->
  Forall (fun o => (a | o)%N) (running_totals start sizes).
Proof.
  intros Hstart Hsizes. revert start Hstart.
  induction Hsizes as [|s r Hs _ IH]; intros start Hstart; simpl; constructor.
  - exact Hstart.
  - apply IH. now apply N.divide_add_r.
Qed.

(** The [i]-th running total is the sum of the first [i] sizes. *)
Lemma running_totals_nth (sizes : list N) (start : N) (i : nat) :
  (i < length sizes)%nat ->
  nth i (running_totals start sizes) 0%N = (start + sumN (firstn i sizes))%N.
Proof.
  revert start i. induction sizes as [|s r IH]; intros start i Hi; simpl in Hi.
  - lia.
  - destruct i as [|i]; simpl.
    + lia.
    + rewrite IH by lia. lia.
Qed.

(** Alignments that are powers of two: the smaller divides the larger. *)
Lemma pow2_divide_max (j k : N) : (2 ^ j | N.max (2 ^ k) (2 ^ j))%N.
Proof.
  destruct (N.le_gt_cases k j) as [H | H].
  - rewrite N.max_r by (apply N.pow_le_mono_r; lia). apply N.divide_refl.
  - rewrite N.max_l by (apply N.pow_le_mono_r; lia).
    exists (2 ^ (k - j))%N. rewrite <- N.pow_add_r. f_equal. lia.
Qed.

Lemma mip_chain_length (n : nat) (d : SkISize) : length (mip_chain n d) = n.
Proof. revert d. induction n as [|n IH]; intros d; simpl; [|rewrite IH]; reflexivity. Qed.

Section PlannerFacts.

Variable caps : Caps.
Variable bytesPerBlock : N.
Variable compressionType : SkTextureCompressionType.

Local Abbreviation A := (minTransferBufferAlignment caps bytesPerBlock).
Local Abbreviation rowBytes := (alignedBytesPerRow_of caps bytesPerBlock compressionType).
Local Abbreviation bytes := (mip_level_bytes caps bytesPerBlock compressionType).
Local Abbreviation loop := (planner_loop caps bytesPerBlock compressionType).

(** The loop, when nothing overflows: the offsets it records are the running
    totals of the aligned level sizes and its result is their sum. *)
Lemma planner_loop_exact (n : nat) :
  forall (d : SkISize) (total : N) (acc : list (N * N)),
    let sizes := map (fun b => align_up b A) (map bytes (mip_chain n d)) in
    (total + sumN sizes < size_t_range)%N ->
    loop n d total acc =
      ((total + sumN sizes)%N,
       acc ++ combine (running_totals total sizes) (map rowBytes (mip_chain n d))).
Proof.
  induction n as [|n IH]; intros d total acc sizes Hfit.
  - simpl. now rewrite N.add_0_r, app_nil_r.
  - subst sizes. simpl in Hfit |- *.
    set (d' := next_level_dimensions d) in *.
    set (s := align_up (bytes d') A) in *.
    assert (Hs : SkAlignTo (mip_level_bytes caps bytesPerBlock compressionType d')
                           (minTransferBufferAlignment caps bytesPerBlock) = s).
    { apply SkAlignTo_exact. fold s. lia. }
    rewrite Hs, size_add_exact by lia.
    rewrite IH by lia.
    rewrite <- app_assoc. simpl. f_equal. lia.
Qed.

Lemma sumN_exact_sizes (a : N) (l : list N) :
  (sumN (map (fun b => align_up b a) l) < size_t_range)%N ->
  map (fun b => SkAlignTo b a) l = map (fun b => align_up b a) l.
Proof.
  induction l as [|b l IH]; simpl; intros H; [reflexivity|].
  rewrite SkAlignTo_exact by lia. rewrite IH by lia. reflexivity.
Qed.

Lemma map_fst_combine {X Y : Type} (l1 : list X) (l2 : list Y) :
  length l1 = length l2 -> map fst (combine l1 l2) = l1.
Proof.
  revert l2. induction l1 as [|x l1 IH]; intros [|y l2] H; simpl in *; try discriminate.
  - reflexivity.
  - f_equal. apply IH. lia.
Qed.

Lemma divide_mod_0 (a x : N) : (a | x)%N -> (x mod a = 0)%N.
Proof.
  intros H. now apply N.Lcm0.mod_divide.
Qed.

(** The planner's result when the upload fits [size_t]. *)
Lemma compute_combined_buffer_size_exact (mipLevelCount : Z) (baseDimensions : SkISize) :
  fits_size_t caps bytesPerBlock compressionType mipLevelCount baseDimensions ->
  let sizes := level_sizes caps bytesPerBlock compressionType mipLevelCount baseDimensions in
  let result := compute_combined_buffer_size caps bytesPerBlock compressionType
                                             mipLevelCount baseDimensions in
  fst (fst result) = sumN sizes /\
  snd (fst result) = A /\
  map fst (snd result) = running_totals 0 sizes /\
  length (snd result) = S (Z.to_nat (mipLevelCount - 1)) /\
  Forall (fun s => (A | s)%N) sizes.
Proof.
  intros Hfit sizes result. subst sizes result.
  unfold level_sizes, fits_size_t in *.
  rewrite (sumN_exact_sizes _ _ Hfit).
  unfold compute_combined_buffer_size, level_bytes in *. simpl in Hfit |- *.
  set (n := Z.to_nat (mipLevelCount - 1)) in *.
  rewrite SkAlignTo_exact by lia.
  pose proof (planner_loop_exact n baseDimensions
                (align_up (base_level_bytes caps bytesPerBlock compressionType baseDimensions) A)
                [(0%N, rowBytes baseDimensions)]) as Hloop.
  cbv zeta in Hloop. specialize (Hloop Hfit). rewrite Hloop.
  simpl. repeat split.
  - f_equal. rewrite map_fst_combine; [reflexivity|].
    now rewrite running_totals_length, !length_map.
  - f_equal. rewrite length_combine, running_totals_length, !length_map, mip_chain_length.
    apply Nat.min_id.
  - constructor; [apply align_up_divide|].
    apply Forall_forall. intros s Hs. apply in_map_iff in Hs.
    destruct Hs as (b & <- & _). apply align_up_divide.
Qed.

(** The sizes the planner adds up: every level after the base one has the
    aligned row bytes times the block-grid height, aligned; the base level
    has the aligned row bytes times the pixel height of [baseDimensions],
    aligned, which is the same whenever the block grid of the base level is
    as high as the base level is in pixels. *)
Lemma level_sizes_by_level (mipLevelCount : Z) (baseDimensions : SkISize) :
  level_sizes caps bytesPerBlock compressionType mipLevelCount baseDimensions =
    SkAlignTo (size_mul (rowBytes baseDimensions) (to_size_t (fHeight baseDimensions))) A
    :: map (block_grid_level_size caps bytesPerBlock compressionType)
           (mip_chain (Z.to_nat (mipLevelCount - 1)) baseDimensions).
Proof. unfold level_sizes, level_bytes. simpl. now rewrite map_map. Qed.

Lemma base_level_size_when_grid_is_pixels (baseDimensions : SkISize) :
  fHeight (CompressedDimensionsInBlocks compressionType baseDimensions)
    = fHeight baseDimensions ->
  SkAlignTo (base_level_bytes caps bytesPerBlock compressionType baseDimensions) A
    = block_grid_level_size caps bytesPerBlock compressionType baseDimensions.
Proof.
  intros H. unfold block_grid_level_size, mip_level_bytes, base_level_bytes.
  cbv zeta. now rewrite H.
Qed.

(** C5, as the code has it: with [mipLevelCount >= 1] and an upload that
    fits [size_t], the planner fills one entry per level; the offset it
    records for a level is the running total of the sizes of the levels
    before it and is a multiple of the returned alignment; the level sizes
    add up to the returned total; the total is a multiple of the returned
    alignment; and the returned alignment is the larger of [bytesPerBlock]
    and the device's transfer alignment.  The offsets are multiples of the
    device's own transfer alignment whenever that divides the returned
    alignment, as it does when both are powers of two ([pow2_divide_max]). *)
Theorem planner_offsets_aligned_to_required_alignment
        (mipLevelCount : Z) (baseDimensions : SkISize) :
  (1 <= mipLevelCount)%Z ->
  fits_size_t caps bytesPerBlock compressionType mipLevelCount baseDimensions ->
  let sizes := level_sizes caps bytesPerBlock compressionType mipLevelCount baseDimensions in
  let result := compute_combined_buffer_size caps bytesPerBlock compressionType
                                             mipLevelCount baseDimensions in
  let totalSize := fst (fst result) in
  let requiredAlignment := snd (fst result) in
  let offsets := map fst (snd result) in
  length offsets = Z.to_nat mipLevelCount /\
  offsets = running_totals 0 sizes /\
  Forall (fun o => (o mod requiredAlignment = 0)%N) offsets /\
  sumN sizes = totalSize /\
  (totalSize mod requiredAlignment = 0)%N /\
  requiredAlignment = N.max bytesPerBlock (requiredTransferBufferAlignment caps) /\
  ((requiredTransferBufferAlignment caps | requiredAlignment)%N ->
   Forall (fun o => (o mod requiredTransferBufferAlignment caps = 0)%N) offsets).
Proof.
  intros Hcount Hfit sizes result totalSize requiredAlignment offsets.
  destruct (compute_combined_buffer_size_exact mipLevelCount baseDimensions Hfit)
    as (Htotal & Halign & Hoffsets & Hlen & Hsizes).
  fold result sizes in Htotal, Halign, Hoffsets, Hlen, Hsizes.
  assert (Hdiv : Forall (fun o => (A | o)%N) offsets).
  { subst offsets. rewrite Hoffsets.
    apply running_totals_divide; [apply N.divide_0_r | exact Hsizes]. }
  subst totalSize requiredAlignment offsets.
  rewrite Htotal, Halign. repeat split.
  - rewrite length_map, Hlen. lia.
  - exact Hoffsets.
  - eapply Forall_impl; [|exact Hdiv]. intros o Ho. now apply divide_mod_0.
  - apply divide_mod_0. now apply sumN_divide.
  - intros Hdev. eapply Forall_impl; [|exact Hdiv].
    intros o Ho. apply divide_mod_0. now apply N.divide_trans with A.
Qed.

End PlannerFacts.

(** ** The per-level loop of [Make] *)

Lemma rect_width_anchored (l t w h : Z) :
  rect_width (MakeLTRB l t (l + w) (t + h)) = w.
Proof. unfold rect_width. simpl. lia. Qed.

Lemma rect_height_anchored (l t w h : Z) :
  rect_height (MakeLTRB l t (l + w) (t + h)) = h.
Proof. unfold rect_height. simpl. lia. Qed.

(** On a dimension that is not negative, C++'s truncating [d / 2] is the
    division rounded down. *)
Lemma half_dimension_rounds_down (d : Z) :
  (0 <= d)%Z -> half_dimension d = Z.max 1 (d / 2).
Proof. intros H. unfold half_dimension. now rewrite Z.quot_div_nonneg by lia. Qed.

Section MakeLevelsFacts.

Variable srcColorInfo dstColorInfo : SkColorInfo.
Variable isRGB888Format needsConversion : bool.
Variable bpp : N.
Variable levelOffsetsAndRowBytes : list (N * N).
Variable baseOffset : N.
Variable dstRect : SkIRect.

Local Abbreviation levels_loop :=
  (make_levels srcColorInfo dstColorInfo isRGB888Format needsConversion bpp
               levelOffsetsAndRowBytes baseOffset dstRect).

Lemma make_levels_cons (level : MipLevel) (rest : list MipLevel) (i : nat) (w h : Z) :
  levels_loop (level :: rest) i w h =
    (MakeCopyData (size_add baseOffset (fst (nth i levelOffsetsAndRowBytes (0%N, 0%N))))
                  (snd (nth i levelOffsetsAndRowBytes (0%N, 0%N)))
                  (MakeLTRB (fLeft dstRect) (fTop dstRect)
                            (fLeft dstRect + w) (fTop dstRect + h))
                  (N.of_nat i)
       :: fst (levels_loop rest (S i) (half_dimension w) (half_dimension h)),
     pack_level srcColorInfo dstColorInfo isRGB888Format needsConversion bpp level
                (fst (nth i levelOffsetsAndRowBytes (0%N, 0%N)))
                (snd (nth i levelOffsetsAndRowBytes (0%N, 0%N))) w h
       :: snd (levels_loop rest (S i) (half_dimension w) (half_dimension h))).
Proof.
  simpl.
  destruct (nth i levelOffsetsAndRowBytes (0%N, 0%N)) as [mipOffset dstRowBytes].
  destruct (make_levels _ _ _ _ _ _ _ _ rest (S i) _ _) as [copies calls].
  reflexivity.
Qed.

Lemma make_levels_length (levels : list MipLevel) :
  forall (i : nat) (w h : Z),
    length (fst (levels_loop levels i w h)) = length levels /\
    length (snd (levels_loop levels i w h)) = length levels.
Proof.
  induction levels as [|level rest IH]; intros i w h.
  - split; reflexivity.
  - rewrite make_levels_cons. simpl.
    destruct (IH (S i) (half_dimension w) (half_dimension h)) as [H1 H2].
    now rewrite H1, H2.
Qed.

(** Descriptor [k] of the loop started at level [i] with dimensions [w] x [h]:
    its level is [i + k]; its rect starts at the origin of [dstRect] and has
    the dimensions halved [k] times. *)
Lemma make_levels_nth (levels : list MipLevel) :
  forall (i : nat) (w h : Z) (k : nat),
    (k < length levels)%nat ->
    let copy := nth k (fst (levels_loop levels i w h)) no_copy in
    fMipLevel copy = N.of_nat (i + k) /\
    fRect copy = MakeLTRB (fLeft dstRect) (fTop dstRect)
                          (fLeft dstRect + Nat.iter k half_dimension w)
                          (fTop dstRect + Nat.iter k half_dimension h).
Proof.
  induction levels as [|level rest IH]; intros i w h k Hk; simpl in Hk; [lia|].
  rewrite make_levels_cons. destruct k as [|k]; simpl fst; cbn [nth].
  - split; [now rewrite Nat.add_0_r | reflexivity].
  - destruct (IH (S i) (half_dimension w) (half_dimension h) k ltac:(lia)) as [Hl Hr].
    cbv zeta. rewrite Hl, Hr. split.
    + f_equal. lia.
    + now rewrite !Nat.iter_succ_r.
Qed.

Lemma pack_level_kind (level : MipLevel) (mipOffset dstRowBytes : N) (w h : Z) :
  is_writeRGBFromRGBx
    (pack_level srcColorInfo dstColorInfo isRGB888Format needsConversion bpp level
                mipOffset dstRowBytes w h) = isRGB888Format.
Proof.
  unfold pack_level. destruct isRGB888Format, needsConversion; reflexivity.
Qed.

Lemma make_levels_kind (levels : list MipLevel) :
  forall (i : nat) (w h : Z),
    Forall (fun call => is_writeRGBFromRGBx call = isRGB888Format)
           (snd (levels_loop levels i w h)).
Proof.
  induction levels as [|level rest IH]; intros i w h.
  - constructor.
  - rewrite make_levels_cons. simpl. constructor; [apply pack_level_kind | apply IH].
Qed.

End MakeLevelsFacts.

(** ** [Make], case by case *)

Lemma has_null_pixels_In (levels : list MipLevel) :
  has_null_pixels levels = true <->
  exists level, In level levels /\ fPixels level = None.
Proof.
  unfold has_null_pixels. rewrite existsb_exists. split.
  - intros (level & Hin & H). exists level. split; [exact Hin|].
    now destruct (fPixels level).
  - intros (level & Hin & H). exists level. split; [exact Hin|]. now rewrite H.
Qed.

Section MakeFacts.

Variable recorder : Recorder.
Variable textureProxy : TextureProxy.
Variable srcColorInfo dstColorInfo : SkColorInfo.
Variable levels : list MipLevel.
Variable dstRect : SkIRect.
Variable condContext : option ConditionalUploadContext.

Local Abbreviation planned :=
  (Make recorder textureProxy srcColorInfo dstColorInfo levels dstRect condContext).
Local Abbreviation format :=
  (resolved_write_format recorder textureProxy srcColorInfo dstColorInfo).
Local Abbreviation bpp :=
  (resolved_bytesPerPixel recorder textureProxy srcColorInfo dstColorInfo).
Local Abbreviation reservation :=
  (requested_reservation recorder textureProxy srcColorInfo dstColorInfo levels dstRect).

(** Every early return of [Make]. *)
Lemma Make_rejects :
  rect_isEmpty dstRect = true \/
  has_null_pixels levels = true \/
  is_unknown_color_type (fst format) = true \/
  bufferInfo_fBuffer (fst reservation) = None ->
  planned_instance planned = invalid_instance /\ planned_writes planned = [].
Proof.
  intros H. unfold Make.
  destruct (rect_isEmpty dstRect); [split; reflexivity|].
  destruct (_ && _); [split; reflexivity|].
  destruct (has_null_pixels levels); [split; reflexivity|].
  unfold requested_reservation, resolved_bytesPerPixel, resolved_write_format in *.
  destruct (supportedWritePixelsColorType _ _ _ _) as [supportedColorType isRGB888Format].
  simpl fst in H. simpl snd in H.
  destruct (is_unknown_color_type supportedColorType); [split; reflexivity|].
  destruct (compute_combined_buffer_size _ _ _ _ _) as [[size alignment] layout].
  simpl fst in H. simpl snd in H.
  destruct (getTextureUploadWriter _ _ _) as [bufferInfo bufferMgr].
  simpl fst in H.
  destruct (bufferInfo_fBuffer bufferInfo).
  - destruct H as [H | [H | [H | H]]]; discriminate.
  - split; reflexivity.
Qed.

(** The instance of a plan that succeeds. *)
Lemma Make_accepts :
  isValid (planned_instance planned) = true ->
  let layout := snd (compute_combined_buffer_size (recorder_caps recorder) bpp kNone
                       (Z.of_nat (length levels)) (rect_size dstRect)) in
  let result :=
    make_levels srcColorInfo dstColorInfo (snd format)
                (negb (SkColorInfo_eqb srcColorInfo dstColorInfo)) bpp layout
                (bufferInfo_fOffset (fst reservation)) dstRect
                levels 0 (rect_width dstRect) (rect_height dstRect) in
  rect_isEmpty dstRect = false /\
  has_null_pixels levels = false /\
  is_unknown_color_type (fst format) = false /\
  planned_instance planned =
    MakeUploadInstance (bufferInfo_fBuffer (fst reservation)) bpp (Some textureProxy)
                       (fst result) condContext /\
  planned_writes planned = snd result /\
  planned_bufferManager planned = snd reservation.
Proof.
  unfold Make, requested_reservation, resolved_bytesPerPixel, resolved_write_format.
  destruct (rect_isEmpty dstRect); [discriminate|].
  destruct (_ && _); [discriminate|].
  destruct (has_null_pixels levels); [discriminate|].
  destruct (supportedWritePixelsColorType _ _ _ _) as [supportedColorType isRGB888Format].
  simpl fst. simpl snd.
  destruct (is_unknown_color_type supportedColorType); [discriminate|].
  destruct (compute_combined_buffer_size _ _ _ _ _) as [[size alignment] layout].
  simpl fst. simpl snd.
  destruct (getTextureUploadWriter _ _ _) as [bufferInfo bufferMgr].
  simpl fst. simpl snd.
  destruct (bufferInfo_fBuffer bufferInfo) as [buffer|]; [|discriminate].
  destruct (make_levels _ _ _ _ _ _ _ _ _ _ _ _) as [copyData writes].
  intros _. repeat split; reflexivity.
Qed.

(** C6: [Make] returns the invalid instance, and writes nothing, when the
    destination rect is empty, when a single-level upload has no pixels, when
    any level has no pixels, when the device resolves the write colour type
    to [kUnknown_SkColorType], or when the staging pool answers the
    reservation with a null buffer.  [Make] is a total function: no input
    makes it fail otherwise. *)
Theorem Make_returns_invalid_instance :
  rect_isEmpty dstRect = true \/
  (length levels = 1%nat /\ fPixels (nth 0 levels (MakeMipLevel None 0)) = None) \/
  (exists level, In level levels /\ fPixels level = None) \/
  fst format = kUnknown_SkColorType \/
  bufferInfo_fBuffer (fst reservation) = None ->
  planned_instance planned = invalid_instance /\
  isValid (planned_instance planned) = false /\
  planned_writes planned = [].
Proof.
  intros H.
  assert (Hr : planned_instance planned = invalid_instance /\ planned_writes planned = []).
  { apply Make_rejects.
    destruct H as [H | [[Hlen Hnull] | [H | [H | H]]]].
    - now left.
    - right; left. apply has_null_pixels_In.
      destruct levels as [|level [|? ?]]; try discriminate.
      exists level. split; [now left | exact Hnull].
    - right; left. now apply has_null_pixels_In.
    - right; right; left. now rewrite H.
    - right; right; right. exact H. }
  destruct Hr as [Hi Hw]. rewrite Hi. split; [reflexivity | split; [reflexivity | exact Hw]].
Qed.

(** C8: in a plan that succeeds, when the device flags the 3-byte RGB format
    the instance has 3 bytes per pixel and every level is packed with
    [writeRGBFromRGBx]; otherwise the bytes per pixel are those of the
    resolved colour type and no level is packed with [writeRGBFromRGBx].
    Either way there is one packing call per level. *)
Theorem Make_bytesPerPixel_follows_format :
  isValid (planned_instance planned) = true ->
  (snd format = true ->
   fBytesPerPixel (planned_instance planned) = 3%N /\
   Forall (fun call => is_writeRGBFromRGBx call = true) (planned_writes planned)) /\
  (snd format = false ->
   fBytesPerPixel (planned_instance planned) = SkColorTypeBytesPerPixel (fst format) /\
   Forall (fun call => is_writeRGBFromRGBx call = false) (planned_writes planned)) /\
  length (planned_writes planned) = length levels.
Proof.
  intros Hvalid.
  destruct (Make_accepts Hvalid) as (_ & _ & _ & Hinst & Hwrites & _).
  rewrite Hinst, Hwrites. simpl fBytesPerPixel.
  pose proof (make_levels_kind srcColorInfo dstColorInfo (snd format)
                (negb (SkColorInfo_eqb srcColorInfo dstColorInfo)) bpp
                (snd (compute_combined_buffer_size (recorder_caps recorder) bpp kNone
                        (Z.of_nat (length levels)) (rect_size dstRect)))
                (bufferInfo_fOffset (fst reservation)) dstRect levels 0
                (rect_width dstRect) (rect_height dstRect)) as Hkind.
  repeat split.
  - unfold resolved_bytesPerPixel. now rewrite H.
  - eapply Forall_impl; [|exact Hkind]. intros call Hcall. simpl in Hcall. congruence.
  - unfold resolved_bytesPerPixel. now rewrite H.
  - eapply Forall_impl; [|exact Hkind]. intros call Hcall. simpl in Hcall. congruence.
  - apply make_levels_length.
Qed.

(** C2, as the code has it: the copy descriptors of a plan that succeeds are
    one per level, in order, each with its index as mip level; the first has
    [dstRect] as its rect; every later one keeps the left and top of
    [dstRect], and its width and height are those of the level before
    divided by two, rounded down, and at least 1. *)
Theorem Make_copy_descriptors_halve_rounding_down :
  isValid (planned_instance planned) = true ->
  let copyData := fCopyData (planned_instance planned) in
  length copyData = length levels /\
  (forall i, (i < length levels)%nat ->
     fMipLevel (nth i copyData no_copy) = N.of_nat i) /\
  (levels <> [] -> fRect (nth 0 copyData no_copy) = dstRect) /\
  (forall i, (S i < length levels)%nat ->
     let previous := fRect (nth i copyData no_copy) in
     let next := fRect (nth (S i) copyData no_copy) in
     fLeft next = fLeft dstRect /\ fTop next = fTop dstRect /\
     rect_width next = Z.max 1 (rect_width previous / 2) /\
     rect_height next = Z.max 1 (rect_height previous / 2)).
Proof.
  intros Hvalid copyData.
  destruct (Make_accepts Hvalid) as (Hrect & _ & _ & Hinst & _ & _).
  subst copyData. rewrite Hinst. simpl fCopyData.
  set (layout := snd (compute_combined_buffer_size _ _ _ _ _)).
  set (convert := negb _).
  pose proof (make_levels_nth srcColorInfo dstColorInfo (snd format) convert bpp layout
                (bufferInfo_fOffset (fst reservation)) dstRect levels 0
                (rect_width dstRect) (rect_height dstRect)) as Hnth.
  cbv zeta in Hnth.
  unfold rect_isEmpty in Hrect. apply orb_false_iff in Hrect.
  destruct Hrect as [Hw Hh]. apply Z.leb_gt in Hw, Hh.
  assert (Hpos : forall k d, (0 < d)%Z -> (0 < Nat.iter k half_dimension d)%Z).
  { induction k as [|k IH]; intros d Hd; simpl; [exact Hd|]. unfold half_dimension. lia. }
  assert (Hiter : forall k d, Nat.iter (S k) half_dimension d
                              = half_dimension (Nat.iter k half_dimension d))
    by reflexivity.
  repeat split.
  - apply make_levels_length.
  - intros i Hi. now destruct (Hnth i Hi) as [-> _].
  - intros Hne. destruct (Hnth 0%nat) as [_ ->].
    { destruct levels; [congruence | simpl; lia]. }
    simpl. unfold rect_width, rect_height. destruct dstRect; simpl. f_equal; lia.
  - destruct (Hnth (S i) H) as [_ ->]. reflexivity.
  - destruct (Hnth (S i) H) as [_ ->]. reflexivity.
  - destruct (Hnth (S i) H) as [_ ->]. destruct (Hnth i ltac:(lia)) as [_ ->].
    rewrite !rect_width_anchored, Hiter. specialize (Hpos i _ Hw).
    apply half_dimension_rounds_down. lia.
  - destruct (Hnth (S i) H) as [_ ->]. destruct (Hnth i ltac:(lia)) as [_ ->].
    rewrite !rect_height_anchored, Hiter. specialize (Hpos i _ Hh).
    apply half_dimension_rounds_down. lia.
Qed.

End MakeFacts.

(** ** Command emission *)

Lemma option_N_eqb_eq (a b : option N) : option_N_eqb a b = true <-> a = b.
Proof.
  destruct a as [m|], b as [n|]; simpl; try (split; congruence).
  rewrite N.eqb_eq. split; congruence.
Qed.

Lemma to_size_t_nonneg (z : Z) : (0 <= z)%Z -> to_size_t z = (Z.to_N z mod size_t_range)%N.
Proof.
  intros H. unfold to_size_t, size_t_range.
  rewrite Z2N.inj_mod by lia. reflexivity.
Qed.

(** The offset arithmetic of lines 367-369, all in [size_t], is the sum taken
    modulo 2^64. *)
Lemma replay_offset_mod (offset rowBytes bytesPerPixel : N) (dy dx : Z) :
  (0 <= dy)%Z -> (0 <= dx)%Z ->
  size_add offset (size_add (size_mul (to_size_t dy) rowBytes)
                            (size_mul (to_size_t dx) bytesPerPixel)) =
  ((offset + Z.to_N dy * rowBytes + Z.to_N dx * bytesPerPixel) mod size_t_range)%N.
Proof.
  intros Hy Hx. rewrite !to_size_t_nonneg by assumption.
  unfold size_add, size_mul.
  rewrite !N.Div0.mul_mod_idemp_l, <- N.Div0.add_mod, N.Div0.add_mod_idemp_r.
  f_equal. lia.
Qed.

Lemma rect_intersect_origin (a b cropped : SkIRect) :
  rect_intersect a b = Some cropped ->
  (fTop a <= fTop cropped)%Z /\ (fLeft a <= fLeft cropped)%Z.
Proof.
  unfold rect_intersect. destruct (rect_isEmpty _); [discriminate|].
  intros H. injection H as <-. simpl. lia.
Qed.

(** C3, as the code has it: when the replay target is the instance's own
    texture, the instance holds one copy descriptor and the upload is not
    skipped by a conditional context, [addCommand] translates the
    descriptor's rect and intersects it with the bounds of the destination.
    With an empty intersection it emits no copy; otherwise it emits exactly
    one copy of one descriptor whose rect is the intersection and whose
    buffer offset is the descriptor's offset plus (cropped top - translated
    top) * rowBytes + (cropped left - translated left) * bytesPerPixel, the
    top and left being those of the rect after the translation and before
    the crop, as a [size_t]: the sum itself whenever it is below 2^64. *)
Theorem addCommand_replay_crops_and_realigns
        (inst : UploadInstance) (proxy : TextureProxy) (copyData : BufferTextureCopyData)
        (context : Context) (replayData : ReplayTargetData) :
  fTextureProxy inst = Some proxy ->
  texture proxy = fTarget replayData ->
  fCopyData inst = [copyData] ->
  upload_needed inst context = true ->
  let dstRect := rect_offset (fRect copyData) (fTranslation replayData) in
  exists inst' calls,
    addCommand inst context replayData = Some (inst', calls) /\
    match rect_intersect dstRect (rect_MakeSize (dimensions proxy)) with
    | None => filter is_copy calls = []
    | Some croppedDstRect =>
        let dy := (fTop croppedDstRect - fTop dstRect)%Z in
        let dx := (fLeft croppedDstRect - fLeft dstRect)%Z in
        let sum := (fBufferOffset copyData + Z.to_N dy * fBufferRowBytes copyData
                    + Z.to_N dx * fBytesPerPixel inst)%N in
        (0 <= dy)%Z /\ (0 <= dx)%Z /\
        exists bufferOffset,
          filter is_copy calls =
            [call_copyBufferToTexture (fBuffer inst) (texture proxy)
               [MakeCopyData bufferOffset (fBufferRowBytes copyData) croppedDstRect
                             (fMipLevel copyData)]] /\
          bufferOffset = (sum mod size_t_range)%N /\
          ((sum < size_t_range)%N -> bufferOffset = sum)
    end.
Proof.
  intros Hproxy Htarget Hcopy Hneeded dstRect.
  assert (Hemit : emit_copy inst proxy replayData =
                  match replay_copy (fBytesPerPixel inst) (dimensions proxy)
                                    (fTranslation replayData) copyData with
                  | None => Some None
                  | Some c => Some (Some (call_copyBufferToTexture (fBuffer inst)
                                                                    (texture proxy) [c]))
                  end).
  { unfold emit_copy. apply option_N_eqb_eq in Htarget. rewrite Htarget, Hcopy.
    simpl. now destruct (replay_copy _ _ _ _). }
  unfold addCommand, upload_needed in *. rewrite Hproxy, Hemit.
  unfold replay_copy. fold dstRect.
  destruct (rect_intersect dstRect (rect_MakeSize (dimensions proxy)))
    as [cropped|] eqn:Hcrop.
  - destruct (rect_intersect_origin _ _ _ Hcrop) as [Htop Hleft].
    rewrite replay_offset_mod by lia.
    subst dstRect. simpl in Htop, Hleft.
    destruct (fConditionalContext inst) as [cond|].
    + destruct (needsUpload cond context) as [needed cond']. simpl in Hneeded.
      subst needed. simpl. eexists _, _. split; [reflexivity|].
      simpl. split; [lia|]. split; [lia|]. eexists. split; [reflexivity|].
      split; [reflexivity | intros Hsum; now apply N.mod_small].
    + eexists _, _. split; [reflexivity|].
      simpl. split; [lia|]. split; [lia|]. eexists. split; [reflexivity|].
      split; [reflexivity | intros Hsum; now apply N.mod_small].
  - destruct (fConditionalContext inst) as [cond|].
    + destruct (needsUpload cond context) as [needed cond']. simpl in Hneeded.
      subst needed. simpl. eexists _, _. split; reflexivity.
    + eexists _, _. split; reflexivity.
Qed.

(** C4: on an instance with a conditional context, [addCommand] calls
    [uploadSubmitted] exactly as often as it emits a copy, and that is at
    most once.  The instance afterwards carries the context in the state the
    query left it in when no copy was emitted, and in that state with the
    context's [uploadSubmitted] applied once when a copy was emitted.  When
    [needsUpload] answers no, the query is the only call; when the replay
    crop is empty, the query is the only call; when a copy is emitted, the
    calls are the query, the copy and one notification. *)
Theorem addCommand_notifies_iff_emitted
        (inst : UploadInstance) (proxy : TextureProxy) (cond : ConditionalUploadContext)
        (context : Context) (replayData : ReplayTargetData) :
  fTextureProxy inst = Some proxy ->
  fConditionalContext inst = Some cond ->
  fCopyData inst <> [] ->
  exists inst' calls,
    addCommand inst context replayData = Some (inst', calls) /\
    count_calls is_submitted calls = count_calls is_copy calls /\
    (count_calls is_copy calls <= 1)%nat /\
    (let asked := snd (cond_needsUpload cond (cond_current cond) context) in
     inst' =
       with_context inst
         (Some (MakeConditionalUploadContext
                  (cond_state cond)
                  (if Nat.eqb (count_calls is_copy calls) 0
                   then asked else cond_uploadSubmitted cond asked)
                  (cond_needsUpload cond) (cond_uploadSubmitted cond)))) /\
    (fst (needsUpload cond context) = false -> calls = [call_needsUpload false]) /\
    (forall copyData rest,
        fCopyData inst = copyData :: rest ->
        texture proxy = fTarget replayData ->
        rect_intersect (rect_offset (fRect copyData) (fTranslation replayData))
                       (rect_MakeSize (dimensions proxy)) = None ->
        count_calls is_copy calls = 0%nat /\ count_calls is_submitted calls = 0%nat) /\
    (count_calls is_copy calls = 1%nat ->
     exists copy, is_copy copy = true /\
                  calls = [call_needsUpload true; copy; call_uploadSubmitted]).
Proof.
  intros Hproxy Hcond Hcopies.
  unfold addCommand, needsUpload, uploadSubmitted. rewrite Hproxy, Hcond.
  destruct (cond_needsUpload cond (cond_current cond) context) as [needed asked] eqn:Hquery.
  cbn [fst snd cond_state cond_current cond_needsUpload cond_uploadSubmitted].
  destruct needed; simpl negb; cbv iota.
  - unfold emit_copy.
    destruct (option_N_eqb (texture proxy) (fTarget replayData)) eqn:Htarget; simpl negb;
      cbv iota.
    + destruct (fCopyData inst) as [|copyData rest] eqn:Hdata; [congruence|].
      unfold replay_copy.
      destruct (rect_intersect _ _) as [cropped|] eqn:Hcrop.
      * eexists _, _. split; [reflexivity|].
        split; [reflexivity|]. split; [unfold count_calls; simpl; lia|].
        split; [reflexivity|]. split; [discriminate|].
        split.
        -- intros c r Hc _ Hnone. injection Hc as <- <-. congruence.
        -- intros _. eexists. split; [|reflexivity]. reflexivity.
      * eexists _, _. split; [reflexivity|].
        split; [reflexivity|]. split; [unfold count_calls; simpl; lia|].
        split; [reflexivity|]. split; [discriminate|].
        split.
        -- intros c r _ _ _. split; reflexivity.
        -- unfold count_calls. simpl. discriminate.
    + eexists _, _. split; [reflexivity|].
      split; [reflexivity|]. split; [unfold count_calls; simpl; lia|].
      split; [reflexivity|]. split; [discriminate|].
      split.
      * intros c r _ Heq. apply option_N_eqb_eq in Heq. congruence.
      * intros _. eexists. split; [|reflexivity]. reflexivity.
  - eexists _, _. split; [reflexivity|].
    split; [reflexivity|]. split; [unfold count_calls; simpl; lia|].
    split; [reflexivity|]. split; [reflexivity|].
    split.
    + intros c r _ _ _. split; reflexivity.
    + unfold count_calls. simpl. discriminate.
Qed.

Lemma addCommand_without_context (inst : UploadInstance) (context : Context)
      (replayData : ReplayTargetData) :
  fConditionalContext inst = None ->
  addCommand inst context replayData =
    match fTextureProxy inst with
    | None => None
    | Some proxy =>
        match emit_copy inst proxy replayData with
        | None => None
        | Some None => Some (inst, [])
        | Some (Some copy) => Some (inst, [copy])
        end
    end.
Proof. intros H. unfold addCommand. now rewrite H. Qed.

Lemma emit_copy_is_copy (inst : UploadInstance) (proxy : TextureProxy)
      (replayData : ReplayTargetData) (call : EmissionCall) :
  emit_copy inst proxy replayData = Some (Some call) -> is_copy call = true.
Proof.
  unfold emit_copy. destruct (negb _).
  - intros H. injection H as <-. reflexivity.
  - destruct (fCopyData inst) as [|copyData rest]; [discriminate|].
    destruct (replay_copy _ _ _ _); intros H; [|discriminate].
    injection H as <-. reflexivity.
Qed.

Lemma MakeCompressed_instance (recorder : Recorder) (textureProxy : TextureProxy)
      (data : pointer) (dataSize : N) :
  let inst := planned_instance (MakeCompressed recorder textureProxy data dataSize) in
  fConditionalContext inst = None /\
  (isValid inst = true -> fTextureProxy inst = Some textureProxy).
Proof.
  unfold MakeCompressed.
  destruct data as [address|]; [|split; [reflexivity | discriminate]].
  destruct (compression_is_none _); [split; [reflexivity | discriminate]|].
  destruct (compute_combined_buffer_size _ _ _ _ _) as [[size alignment] layout].
  destruct (getTextureUploadWriter _ _ _) as [bufferInfo bufferMgr].
  destruct (bufferInfo_fBuffer bufferInfo); [|split; [reflexivity | discriminate]].
  destruct (make_compressed_levels _ _ _ _ _ _ _ _ _) as [copyData writes].
  split; reflexivity.
Qed.

(** C10: an instance made by [MakeCompressed] has no conditional context.
    Hence [addCommand] on it never calls [needsUpload] nor [uploadSubmitted]
    and leaves the instance as it is; when the replay target is another
    texture it emits the one copy of all descriptors, and when the replay
    target is the instance's own texture it emits the cropped copy unless the
    crop is empty. *)
Theorem MakeCompressed_uploads_unconditionally
        (recorder : Recorder) (textureProxy : TextureProxy) (data : pointer) (dataSize : N)
        (context : Context) (replayData : ReplayTargetData) :
  let inst := planned_instance (MakeCompressed recorder textureProxy data dataSize) in
  fConditionalContext inst = None /\
  (forall inst' calls,
      addCommand inst context replayData = Some (inst', calls) ->
      inst' = inst /\
      count_calls is_query calls = 0%nat /\
      count_calls is_submitted calls = 0%nat /\
      Forall (fun call => is_copy call = true) calls) /\
  (isValid inst = true ->
   texture textureProxy <> fTarget replayData ->
   addCommand inst context replayData =
     Some (inst, [call_copyBufferToTexture (fBuffer inst) (texture textureProxy)
                                           (fCopyData inst)])) /\
  (isValid inst = true ->
   texture textureProxy = fTarget replayData ->
   forall copyData rest,
     fCopyData inst = copyData :: rest ->
     addCommand inst context replayData =
       Some (inst,
             match replay_copy (fBytesPerPixel inst) (dimensions textureProxy)
                               (fTranslation replayData) copyData with
             | None => []
             | Some transformedCopyData =>
                 [call_copyBufferToTexture (fBuffer inst) (texture textureProxy)
                                           [transformedCopyData]]
             end)).
Proof.
  intros inst.
  destruct (MakeCompressed_instance recorder textureProxy data dataSize) as [Hnone Hproxy].
  fold inst in Hnone, Hproxy.
  split; [exact Hnone|].
  pose proof (addCommand_without_context inst context replayData Hnone) as Hadd.
  split; [|split].
  - intros inst' calls Hcalls. rewrite Hadd in Hcalls.
    destruct (fTextureProxy inst) as [proxy|]; [|discriminate].
    destruct (emit_copy inst proxy replayData) as [[copy|]|] eqn:Hemit;
      try discriminate; injection Hcalls as <- <-.
    + apply emit_copy_is_copy in Hemit. unfold count_calls. simpl.
      destruct copy; try discriminate. simpl. repeat split. now constructor.
    + repeat split. constructor.
  - intros Hvalid Hother. rewrite Hadd, (Hproxy Hvalid). unfold emit_copy.
    destruct (option_N_eqb _ _) eqn:Heq; [|reflexivity].
    apply option_N_eqb_eq in Heq. contradiction.
  - intros Hvalid Hsame copyData rest Hdata. rewrite Hadd, (Hproxy Hvalid).
    unfold emit_copy. apply option_N_eqb_eq in Hsame. rewrite Hsame, Hdata. simpl.
    now destruct (replay_copy _ _ _ _).
Qed.

(** ** Resource preparation *)

Lemma UploadInstance_prepareResources_true (inst : UploadInstance)
      (rp rp' : ResourceProvider) :
  UploadInstance_prepareResources inst rp = (true, rp') <->
  exists proxy, fTextureProxy inst = Some proxy /\
                InstantiateIfNotLazy rp proxy = (true, rp').
Proof.
  unfold UploadInstance_prepareResources.
  destruct (fTextureProxy inst) as [proxy|].
  - destruct (InstantiateIfNotLazy rp proxy) as [[|] rp1] eqn:E; simpl; split.
    + intros H. exists proxy. split; congruence.
    + intros (p & Hp & H). congruence.
    + discriminate.
    + intros (p & Hp & H). congruence.
  - split; [discriminate | intros (p & Hp & _); discriminate].
Qed.

Lemma UploadInstance_prepareResources_false (inst : UploadInstance)
      (rp rp' : ResourceProvider) :
  UploadInstance_prepareResources inst rp = (false, rp') <-> PrepareFails inst rp rp'.
Proof.
  unfold UploadInstance_prepareResources, PrepareFails.
  destruct (fTextureProxy inst) as [proxy|].
  - destruct (InstantiateIfNotLazy rp proxy) as [[|] rp1] eqn:E; simpl; split.
    + discriminate.
    + intros [[H _] | (p & Hp & H)]; congruence.
    + intros H. right. exists proxy. split; congruence.
    + intros [[H _] | (p & Hp & H)]; congruence.
  - split.
    + intros H. left. split; congruence.
    + intros [[_ ->] | (p & Hp & _)]; [reflexivity | discriminate].
Qed.

Lemma prepare_instances_true (instances : list UploadInstance) :
  forall rp rp',
    prepare_instances instances rp = (true, rp') <-> PreparedAll instances rp rp'.
Proof.
  induction instances as [|inst rest IH]; intros rp rp'; simpl.
  - split.
    + intros H. injection H as <-. constructor.
    + intros H. inversion H. reflexivity.
  - destruct (UploadInstance_prepareResources inst rp) as [ok rp1] eqn:Hinst.
    destruct ok; simpl.
    + apply UploadInstance_prepareResources_true in Hinst.
      destruct Hinst as (proxy & Hproxy & Hok). rewrite IH. split.
      * intros H. econstructor; eassumption.
      * intros H. inversion H as [|? ? p ? rp1' ? Hp Hi Hrest]; subst.
        rewrite Hproxy in Hp. injection Hp as <-. rewrite Hok in Hi.
        injection Hi as <-. exact Hrest.
    + split; [discriminate|].
      intros H. inversion H as [|? ? p ? rp1' ? Hp Hi Hrest]; subst.
      assert (Ht : UploadInstance_prepareResources inst rp = (true, rp1')).
      { apply UploadInstance_prepareResources_true. now exists p. }
      congruence.
Qed.

Lemma prepare_instances_false (instances : list UploadInstance) :
  forall rp rp',
    prepare_instances instances rp = (false, rp') <->
    exists pre bad post rp1,
      instances = pre ++ bad :: post /\ PreparedAll pre rp rp1 /\ PrepareFails bad rp1 rp'.
Proof.
  induction instances as [|inst rest IH]; intros rp rp'; simpl.
  - split; [discriminate|].
    intros (pre & bad & post & rp1 & Heq & _). now destruct pre.
  - destruct (UploadInstance_prepareResources inst rp) as [ok rp1] eqn:Hinst.
    destruct ok; simpl.
    + rewrite IH. apply UploadInstance_prepareResources_true in Hinst.
      destruct Hinst as (proxy & Hproxy & Hok). split.
      * intros (pre & bad & post & rp2 & -> & Hpre & Hbad).
        exists (inst :: pre), bad, post, rp2. repeat split; [|exact Hbad].
        econstructor; eassumption.
      * intros (pre & bad & post & rp2 & Heq & Hpre & Hbad).
        destruct pre as [|first pre]; simpl in Heq; injection Heq as <- ->.
        -- inversion Hpre; subst.
           destruct Hbad as [[H _] | (p & Hp & H)]; [congruence|].
           rewrite Hproxy in Hp. injection Hp as <-. congruence.
        -- inversion Hpre as [|? ? p ? rp1' ? Hp Hi Hrest]; subst.
           rewrite Hproxy in Hp. injection Hp as <-. rewrite Hok in Hi.
           injection Hi as <-. now exists pre, bad, post, rp2.
    + apply UploadInstance_prepareResources_false in Hinst. split.
      * intros H. injection H as <-.
        exists [], inst, rest, rp. repeat split; [constructor | exact Hinst].
      * intros (pre & bad & post & rp2 & Heq & Hpre & Hbad).
        destruct pre as [|first pre]; simpl in Heq; injection Heq as <- ->.
        -- inversion Hpre; subst.
           apply UploadInstance_prepareResources_false in Hinst, Hbad. congruence.
        -- inversion Hpre as [|? ? p ? rp1' ? Hp Hi Hrest]; subst.
           apply UploadInstance_prepareResources_false in Hinst.
           assert (Ht : UploadInstance_prepareResources inst rp = (true, rp1')).
           { apply UploadInstance_prepareResources_true. now exists p. }
           congruence.
Qed.

(** C7: [UploadTask::prepareResources] returns true exactly when every
    instance, in order, has a texture proxy that [InstantiateIfNotLazy]
    accepts.  It returns false exactly when the instances split into a prefix
    that was prepared, a first instance whose proxy is null or refused, and a
    rest: the resource provider is left as that failing instance left it, so
    nothing of the rest was processed. *)
Theorem UploadTask_prepareResources_fails_fast (task : UploadTask) (rp : ResourceProvider) :
  (forall rp',
      UploadTask_prepareResources task rp = (true, rp') <->
      PreparedAll (task_fInstances task) rp rp') /\
  (forall rp',
      UploadTask_prepareResources task rp = (false, rp') <->
      exists pre bad post rp1,
        task_fInstances task = pre ++ bad :: post /\
        PreparedAll pre rp rp1 /\
        PrepareFails bad rp1 rp').
Proof.
  unfold UploadTask_prepareResources. split; intros rp'.
  - apply prepare_instances_true.
  - apply prepare_instances_false.
Qed.

(** ** Recording uploads *)

(** C9: [recordUpload] plans the instance with [Make]; if the instance is
    invalid it returns false and leaves the list as it was; if the instance
    is valid it returns true and the list is the old one with that instance
    added at the end. *)
Theorem recordUpload_appends_only_valid_instances
        (uploads : UploadList) (recorder : Recorder) (textureProxy : TextureProxy)
        (srcColorInfo dstColorInfo : SkColorInfo) (levels : list MipLevel)
        (dstRect : SkIRect) (condContext : option ConditionalUploadContext) :
  let instance :=
    planned_instance (Make recorder textureProxy srcColorInfo dstColorInfo levels dstRect
                           condContext) in
  let result := recordUpload uploads recorder textureProxy srcColorInfo dstColorInfo levels
                             dstRect condContext in
  (isValid instance = false ->
   fst (fst result) = false /\ snd (fst result) = uploads) /\
  (isValid instance = true ->
   fst (fst result) = true /\
   fInstances (snd (fst result)) = fInstances uploads ++ [instance] /\
   length (fInstances (snd (fst result))) = S (length (fInstances uploads))).
Proof.
  intros instance result. subst result. unfold recordUpload. fold instance.
  split; intros Hvalid; rewrite Hvalid; simpl.
  - split; reflexivity.
  - repeat split. rewrite length_app. simpl. lia.
Qed.

(** * Further properties *)

(** ** The layout the planner fills *)

Lemma sumN_firstn_le (l : list N) (k : nat) : (sumN (firstn k l) <= sumN l)%N.
Proof.
  revert k. induction l as [|x l IH]; intros [|k]; simpl; try lia.
  specialize (IH k). lia.
Qed.

Lemma sumN_firstn_succ (l : list N) (k : nat) :
  (k < length l)%nat ->
  sumN (firstn (S k) l) = (sumN (firstn k l) + nth k l 0)%N.
Proof.
  revert k. induction l as [|x l IH]; intros k Hk; simpl in Hk; [lia|].
  destruct k as [|k].
  - simpl. lia.
  - change (firstn (S (S k)) (x :: l)) with (x :: firstn (S k) l).
    change (firstn (S k) (x :: l)) with (x :: firstn k l).
    cbn [sumN fold_right nth]. fold (sumN (firstn (S k) l)). fold (sumN (firstn k l)).
    rewrite IH by lia. lia.
Qed.

Lemma mip_chain_nth (n : nat) :
  forall (d : SkISize) (k : nat),
    (k < n)%nat ->
    nth k (mip_chain n d) d = Nat.iter (S k) next_level_dimensions d.
Proof.
  induction n as [|n IH]; intros d k Hk; [lia|].
  simpl mip_chain. destruct k as [|k].
  - reflexivity.
  - cbn [nth]. rewrite (nth_indep _ d (next_level_dimensions d))
      by (rewrite mip_chain_length; lia).
    rewrite IH by lia. now rewrite <- !Nat.iter_succ_r.
Qed.

Section PlannerLayoutFacts.

Variable caps : Caps.
Variable bytesPerBlock : N.
Variable compressionType : SkTextureCompressionType.

Local Abbreviation rowBytes := (alignedBytesPerRow_of caps bytesPerBlock compressionType).
Local Abbreviation loop := (planner_loop caps bytesPerBlock compressionType).

(** Whatever the sizes, the loop keeps the entries it was given and adds one
    entry per iteration, with the row bytes of that level. *)
Lemma planner_loop_shape (n : nat) :
  forall (d : SkISize) (total : N) (acc : list (N * N)),
  exists tail,
    snd (loop n d total acc) = acc ++ tail /\
    map snd tail = map rowBytes (mip_chain n d).
Proof.
  induction n as [|n IH]; intros d total acc.
  - exists []. simpl. now rewrite app_nil_r.
  - simpl.
    destruct (IH (next_level_dimensions d)
                 (size_add total
                    (SkAlignTo (mip_level_bytes caps bytesPerBlock compressionType
                                                (next_level_dimensions d))
                               (minTransferBufferAlignment caps bytesPerBlock)))
                 (acc ++ [(total, rowBytes (next_level_dimensions d))]))
      as (tail & Htail & Hrows).
    exists ((total, rowBytes (next_level_dimensions d)) :: tail). split.
    + rewrite Htail, <- app_assoc. reflexivity.
    + simpl. now rewrite Hrows.
Qed.

(** X1: for every [mipLevelCount], also below 1, the planner records the
    base level at offset 0 followed by one entry per further level, and the
    row bytes of every entry are the device-aligned bytes of the block-grid
    width of that level, the dimensions being halved (at least 1) from level
    to level. *)
Theorem planner_records_row_bytes_per_level (mipLevelCount : Z) (baseDimensions : SkISize) :
  let layout := snd (compute_combined_buffer_size caps bytesPerBlock compressionType
                                                  mipLevelCount baseDimensions) in
  length layout = S (Z.to_nat (mipLevelCount - 1)) /\
  fst (nth 0 layout (1%N, 0%N)) = 0%N /\
  forall i, (i < length layout)%nat ->
    snd (nth i layout (0%N, 0%N)) =
      getAlignedTextureDataRowBytes caps
        (size_mul
           (to_size_t
              (fWidth (CompressedDimensionsInBlocks compressionType
                         (Nat.iter i next_level_dimensions baseDimensions))))
           bytesPerBlock).
Proof.
  intros layout. subst layout. unfold compute_combined_buffer_size.
  set (n := Z.to_nat (mipLevelCount - 1)).
  set (size0 := SkAlignTo _ _).
  destruct (planner_loop_shape n baseDimensions size0 [(0%N, rowBytes baseDimensions)])
    as (tail & Htail & Hrows).
  destruct (loop n baseDimensions size0 [(0%N, rowBytes baseDimensions)])
    as [total layout] eqn:Hloop.
  simpl in Htail |- *. subst layout.
  assert (Hlen : length tail = n).
  { rewrite <- (length_map snd tail), Hrows, length_map. apply mip_chain_length. }
  split; [simpl; now rewrite Hlen|]. split; [reflexivity|].
  intros i Hi. simpl in Hi. destruct i as [|i]; [reflexivity|].
  cbn [nth].
  rewrite <- (map_nth snd tail (0%N, 0%N) i), Hrows.
  change (snd (0%N, 0%N)) with 0%N.
  rewrite (nth_indep _ 0%N (rowBytes baseDimensions)) by (rewrite length_map, mip_chain_length; lia).
  rewrite (map_nth rowBytes (mip_chain n baseDimensions) baseDimensions i).
  rewrite mip_chain_nth by lia. reflexivity.
Qed.

(** X2: when the upload fits [size_t], the levels lie back to back inside
    the allocation: the offset of a level plus its size is the offset of the
    next level, and never exceeds the total, so the offsets never decrease. *)
Theorem planner_levels_are_contiguous (mipLevelCount : Z) (baseDimensions : SkISize) :
  fits_size_t caps bytesPerBlock compressionType mipLevelCount baseDimensions ->
  let sizes := level_sizes caps bytesPerBlock compressionType mipLevelCount baseDimensions in
  let result := compute_combined_buffer_size caps bytesPerBlock compressionType
                                             mipLevelCount baseDimensions in
  let offsets := map fst (snd result) in
  forall i, (i < length offsets)%nat ->
    (nth i offsets 0 + nth i sizes 0 <= fst (fst result))%N /\
    ((S i < length offsets)%nat ->
     nth (S i) offsets 0%N = (nth i offsets 0 + nth i sizes 0)%N).
Proof.
  intros Hfit sizes result offsets i Hi.
  destruct (compute_combined_buffer_size_exact caps bytesPerBlock compressionType
              mipLevelCount baseDimensions Hfit) as (Htotal & _ & Hoffsets & _ & _).
  fold result sizes in Htotal, Hoffsets. fold offsets in Hoffsets.
  assert (Hlen : length offsets = length sizes)
    by (rewrite Hoffsets; apply running_totals_length).
  rewrite Htotal, Hoffsets.
  rewrite running_totals_nth by lia. rewrite N.add_0_l.
  rewrite <- sumN_firstn_succ by lia. split.
  - apply sumN_firstn_le.
  - intros Hnext. rewrite running_totals_length in Hnext.
    rewrite running_totals_nth by lia. now rewrite N.add_0_l.
Qed.

End PlannerLayoutFacts.

(** ** What [Make] writes and records per level *)

Section MakeLevelsLayoutFacts.

Variable srcColorInfo dstColorInfo : SkColorInfo.
Variable isRGB888Format needsConversion : bool.
Variable bpp : N.
Variable levelOffsetsAndRowBytes : list (N * N).
Variable baseOffset : N.
Variable dstRect : SkIRect.

Local Abbreviation levels_loop :=
  (make_levels srcColorInfo dstColorInfo isRGB888Format needsConversion bpp
               levelOffsetsAndRowBytes baseOffset dstRect).

Lemma make_levels_nth_layout (levels : list MipLevel) :
  forall (i : nat) (w h : Z) (k : nat),
    (k < length levels)%nat ->
    let copy := nth k (fst (levels_loop levels i w h)) no_copy in
    let entry := nth (i + k) levelOffsetsAndRowBytes (0%N, 0%N) in
    fBufferOffset copy = size_add baseOffset (fst entry) /\
    fBufferRowBytes copy = snd entry.
Proof.
  induction levels as [|level rest IH]; intros i w h k Hk; simpl in Hk; [lia|].
  rewrite make_levels_cons. destruct k as [|k]; simpl fst; cbn [nth].
  - rewrite Nat.add_0_r. split; reflexivity.
  - specialize (IH (S i) (half_dimension w) (half_dimension h) k ltac:(lia)).
    cbv zeta in IH |- *. replace (i + S k)%nat with (S i + k)%nat by lia. exact IH.
Qed.

Lemma make_levels_nth_write (levels : list MipLevel) :
  forall (i : nat) (w h : Z) (k : nat),
    (k < length levels)%nat ->
    let entry := nth (i + k) levelOffsetsAndRowBytes (0%N, 0%N) in
    nth k (snd (levels_loop levels i w h)) no_write =
      pack_level srcColorInfo dstColorInfo isRGB888Format needsConversion bpp
                 (nth k levels (MakeMipLevel None 0)) (fst entry) (snd entry)
                 (Nat.iter k half_dimension w) (Nat.iter k half_dimension h).
Proof.
  induction levels as [|level rest IH]; intros i w h k Hk; simpl in Hk; [lia|].
  rewrite make_levels_cons. destruct k as [|k]; simpl snd; cbn [nth].
  - rewrite Nat.add_0_r. reflexivity.
  - specialize (IH (S i) (half_dimension w) (half_dimension h) k ltac:(lia)).
    cbv zeta in IH |- *. replace (i + S k)%nat with (S i + k)%nat by lia.
    rewrite IH, !Nat.iter_succ_r. reflexivity.
Qed.

End MakeLevelsLayoutFacts.

Section MakePlanFacts.

Variable recorder : Recorder.
Variable textureProxy : TextureProxy.
Variable srcColorInfo dstColorInfo : SkColorInfo.
Variable levels : list MipLevel.
Variable dstRect : SkIRect.
Variable condContext : option ConditionalUploadContext.

Local Abbreviation planned :=
  (Make recorder textureProxy srcColorInfo dstColorInfo levels dstRect condContext).
Local Abbreviation format :=
  (resolved_write_format recorder textureProxy srcColorInfo dstColorInfo).
Local Abbreviation bpp :=
  (resolved_bytesPerPixel recorder textureProxy srcColorInfo dstColorInfo).
Local Abbreviation reservation :=
  (requested_reservation recorder textureProxy srcColorInfo dstColorInfo levels dstRect).
Local Abbreviation plan :=
  (compute_combined_buffer_size (recorder_caps recorder) bpp kNone
                                (Z.of_nat (length levels)) (rect_size dstRect)).

Lemma Make_valid_iff :
  isValid (planned_instance planned) = true <->
  rect_isEmpty dstRect = false /\
  has_null_pixels levels = false /\
  is_unknown_color_type (fst format) = false /\
  bufferInfo_fBuffer (fst reservation) <> None.
Proof.
  split.
  - intros Hvalid.
    destruct (Make_accepts recorder textureProxy srcColorInfo dstColorInfo levels dstRect
                condContext Hvalid) as (Hrect & Hnull & Hknown & _).
    repeat split; try assumption.
    intros Hnone.
    destruct (Make_rejects recorder textureProxy srcColorInfo dstColorInfo levels dstRect
                condContext) as [Hinvalid _].
    { right; right; right. exact Hnone. }
    rewrite Hinvalid in Hvalid. discriminate.
  - intros (Hrect & Hnull & Hknown & Hbuffer).
    unfold Make, requested_reservation, resolved_bytesPerPixel, resolved_write_format in *.
    rewrite Hrect.
    destruct (_ && _) eqn:Hsingle.
    { apply andb_true_iff in Hsingle. destruct Hsingle as [Hlen Hfirst].
      apply Nat.eqb_eq in Hlen.
      destruct levels as [|level [|? ?]]; try discriminate.
      simpl in Hfirst, Hnull. destruct (fPixels level); discriminate. }
    rewrite Hnull.
    destruct (supportedWritePixelsColorType _ _ _ _) as [supportedColorType isRGB888Format].
    simpl fst in *. simpl snd in *. rewrite Hknown.
    destruct (compute_combined_buffer_size _ _ _ _ _) as [[size alignment] layout].
    simpl fst in *. simpl snd in *.
    destruct (getTextureUploadWriter _ _ _) as [bufferInfo bufferMgr].
    simpl fst in *.
    destruct (bufferInfo_fBuffer bufferInfo) as [buffer|]; [|congruence].
    destruct (make_levels _ _ _ _ _ _ _ _ _ _ _ _) as [copyData writes].
    reflexivity.
Qed.

(** X3: [UploadTask::Make] on the instance [UploadInstance::Make] plans
    gives no task exactly when the rect is empty, a level has no pixels, the
    device resolves no colour type, or the staging pool answers with a null
    buffer; in every other case it gives a task of that one instance. *)
Theorem UploadTask_Make_of_planned_instance :
  (UploadTask_Make (planned_instance planned) = None <->
   rect_isEmpty dstRect = true \/
   has_null_pixels levels = true \/
   is_unknown_color_type (fst format) = true \/
   bufferInfo_fBuffer (fst reservation) = None) /\
  (UploadTask_Make (planned_instance planned) <> None ->
   UploadTask_Make (planned_instance planned)
     = Some (MakeUploadTask [planned_instance planned]) /\
   fTextureProxy (planned_instance planned) = Some textureProxy /\
   fBuffer (planned_instance planned) = bufferInfo_fBuffer (fst reservation) /\
   fConditionalContext (planned_instance planned) = condContext).
Proof.
  unfold UploadTask_Make.
  destruct (isValid (planned_instance planned)) eqn:Hvalid; simpl negb; cbv iota.
  - split.
    + split; [discriminate|]. intros H.
      destruct (Make_rejects recorder textureProxy srcColorInfo dstColorInfo levels dstRect
                  condContext H) as [Hinvalid _].
      rewrite Hinvalid in Hvalid. discriminate.
    + intros _.
      destruct (Make_accepts recorder textureProxy srcColorInfo dstColorInfo levels dstRect
                  condContext Hvalid) as (_ & _ & _ & Hinst & _).
      rewrite Hinst. repeat split.
  - split; [|congruence]. split; [|reflexivity]. intros _.
    destruct (rect_isEmpty dstRect) eqn:Hrect; [now left|].
    destruct (has_null_pixels levels) eqn:Hnull; [now (right; left)|].
    destruct (is_unknown_color_type (fst format)) eqn:Hknown; [now (right; right; left)|].
    right; right; right.
    destruct (bufferInfo_fBuffer (fst reservation)) as [buffer|] eqn:Hbuffer; [|reflexivity].
    assert (Hv : isValid (planned_instance planned) = true).
    { apply Make_valid_iff. repeat split; try assumption. congruence. }
    congruence.
Qed.

(** X4: [Make] asks the staging pool for a region only after the input has
    passed its checks: with an empty rect, a level without pixels or no
    writable colour type the upload buffer manager is left as it was; in
    every other case it is the manager after the one reservation, also when
    that reservation came back without a buffer. *)
Theorem Make_reserves_only_for_accepted_input :
  (rect_isEmpty dstRect = true \/
   has_null_pixels levels = true \/
   is_unknown_color_type (fst format) = true ->
   planned_bufferManager planned = recorder_uploadBufferManager recorder) /\
  (rect_isEmpty dstRect = false ->
   has_null_pixels levels = false ->
   is_unknown_color_type (fst format) = false ->
   planned_bufferManager planned = snd reservation).
Proof.
  unfold Make, requested_reservation, resolved_bytesPerPixel, resolved_write_format.
  split.
  - intros H.
    destruct (rect_isEmpty dstRect); [reflexivity|].
    destruct (_ && _); [reflexivity|].
    destruct (has_null_pixels levels); [reflexivity|].
    destruct (supportedWritePixelsColorType _ _ _ _) as [supportedColorType isRGB888Format].
    simpl fst in H.
    destruct (is_unknown_color_type supportedColorType); [reflexivity|].
    destruct H as [H | [H | H]]; discriminate.
  - intros Hrect Hnull Hknown. rewrite Hrect.
    destruct (_ && _) eqn:Hsingle.
    { apply andb_true_iff in Hsingle. destruct Hsingle as [Hlen Hfirst].
      apply Nat.eqb_eq in Hlen.
      destruct levels as [|level [|? ?]]; try discriminate.
      simpl in Hfirst, Hnull. destruct (fPixels level); discriminate. }
    rewrite Hnull.
    destruct (supportedWritePixelsColorType _ _ _ _) as [supportedColorType isRGB888Format].
    simpl fst in *. simpl snd in *. rewrite Hknown.
    destruct (compute_combined_buffer_size _ _ _ _ _) as [[size alignment] layout].
    simpl fst. simpl snd.
    destruct (getTextureUploadWriter _ _ _) as [bufferInfo bufferMgr].
    simpl snd.
    destruct (bufferInfo_fBuffer bufferInfo) as [buffer|]; [|reflexivity].
    destruct (make_levels _ _ _ _ _ _ _ _ _ _ _ _) as [copyData writes].
    reflexivity.
Qed.

Lemma Make_copy_data_layout :
  isValid (planned_instance planned) = true ->
  forall i, (i < length levels)%nat ->
    let copy := nth i (fCopyData (planned_instance planned)) no_copy in
    let entry := nth i (snd plan) (0%N, 0%N) in
    fBufferOffset copy = size_add (bufferInfo_fOffset (fst reservation)) (fst entry) /\
    fBufferRowBytes copy = snd entry.
Proof.
  intros Hvalid i Hi.
  destruct (Make_accepts recorder textureProxy srcColorInfo dstColorInfo levels dstRect
              condContext Hvalid) as (_ & _ & _ & Hinst & _).
  rewrite Hinst. simpl fCopyData.
  apply (make_levels_nth_layout srcColorInfo dstColorInfo (snd format)
           (negb (SkColorInfo_eqb srcColorInfo dstColorInfo)) bpp (snd plan)
           (bufferInfo_fOffset (fst reservation)) dstRect levels 0
           (rect_width dstRect) (rect_height dstRect) i Hi).
Qed.

(** X5: in a plan that succeeds, level [i] is packed at the planner's offset
    for that level with the planner's row bytes, from the level's own pixels
    and row bytes, at the dimensions of [dstRect] halved [i] times.  With
    equal colour descriptions and no 3-byte format it is a plain row copy of
    width times bytes-per-pixel bytes per row; with different descriptions
    and no 3-byte format it is a conversion; with the 3-byte format it is the
    RGB pack, from the caller's rows when the descriptions are equal and from
    a converted temporary otherwise. *)
Theorem Make_packs_each_level_at_its_offset :
  isValid (planned_instance planned) = true ->
  forall i, (i < length levels)%nat ->
    let call := nth i (planned_writes planned) no_write in
    let level := nth i levels (MakeMipLevel None 0) in
    let entry := nth i (snd plan) (0%N, 0%N) in
    let width := Nat.iter i half_dimension (rect_width dstRect) in
    let height := Nat.iter i half_dimension (rect_height dstRect) in
    let srcInfo := MakeImageInfo (MakeISize width height) srcColorInfo in
    let dstInfo := MakeImageInfo (MakeISize width height) dstColorInfo in
    let same := SkColorInfo_eqb srcColorInfo dstColorInfo in
    fPixels level <> None /\
    match snd format, same with
    | false, true =>
        call = writer_write (fst entry) (fPixels level) (fRowBytes level) (snd entry)
                            (size_mul (to_size_t width) bpp) height
    | false, false =>
        call = writer_convertAndWrite (fst entry) srcInfo (fPixels level) (fRowBytes level)
                                      dstInfo (snd entry)
    | true, true =>
        call = writer_writeRGBFromRGBx (fst entry) (SourceRows (fPixels level))
                                       (fRowBytes level) (snd entry) width height
    | true, false =>
        call = writer_writeRGBFromRGBx (fst entry)
                 (ConvertedRows dstInfo srcInfo (fPixels level) (fRowBytes level))
                 (pixmap_rowBytes dstInfo) (snd entry) width height
    end.
Proof.
  intros Hvalid i Hi.
  destruct (Make_accepts recorder textureProxy srcColorInfo dstColorInfo levels dstRect
              condContext Hvalid) as (_ & Hnull & _ & _ & Hwrites & _).
  cbv zeta. split.
  - intros Hnone.
    assert (Hhas : has_null_pixels levels = true).
    { apply has_null_pixels_In. eexists. split; [|exact Hnone]. now apply nth_In. }
    congruence.
  - rewrite Hwrites.
    rewrite (make_levels_nth_write srcColorInfo dstColorInfo (snd format)
               (negb (SkColorInfo_eqb srcColorInfo dstColorInfo)) bpp (snd plan)
               (bufferInfo_fOffset (fst reservation)) dstRect levels 0
               (rect_width dstRect) (rect_height dstRect) i Hi).
    unfold pack_level. simpl Nat.add.
    destruct (snd format), (SkColorInfo_eqb srcColorInfo dstColorInfo); reflexivity.
Qed.

(** X6: in a plan that succeeds and fits [size_t] together with the pool's
    offset, every level's bytes lie inside the reserved region: the
    descriptor's offset is the pool's offset plus the sizes of the levels
    before, and that plus the level's own size does not pass the end of the
    region.  If the pool's offset is a multiple of the alignment [Make] asked
    for, so is every descriptor's offset. *)
Theorem Make_descriptors_stay_in_region :
  isValid (planned_instance planned) = true ->
  fits_size_t (recorder_caps recorder) bpp kNone
              (Z.of_nat (length levels)) (rect_size dstRect) ->
  (bufferInfo_fOffset (fst reservation) + fst (fst plan) < size_t_range)%N ->
  let sizes := level_sizes (recorder_caps recorder) bpp kNone
                           (Z.of_nat (length levels)) (rect_size dstRect) in
  let baseOffset := bufferInfo_fOffset (fst reservation) in
  forall i, (i < length levels)%nat ->
    let copy := nth i (fCopyData (planned_instance planned)) no_copy in
    fBufferOffset copy = (baseOffset + sumN (firstn i sizes))%N /\
    (baseOffset <= fBufferOffset copy)%N /\
    (fBufferOffset copy + nth i sizes 0 <= baseOffset + fst (fst plan))%N /\
    ((baseOffset mod snd (fst plan) = 0)%N ->
     (fBufferOffset copy mod snd (fst plan) = 0)%N).
Proof.
  intros Hvalid Hfit Hregion sizes baseOffset i Hi.
  destruct (Make_copy_data_layout Hvalid i Hi) as [Hoffset _].
  destruct (compute_combined_buffer_size_exact
              (recorder_caps recorder) bpp kNone (Z.of_nat (length levels))
              (rect_size dstRect) Hfit) as (Htotal & Halign & Hoffsets & Hlen & Hsizes).
  fold sizes in Htotal, Hoffsets, Hsizes.
  assert (Hcount : (i < length sizes)%nat).
  { rewrite <- (running_totals_length 0 sizes), <- Hoffsets, length_map, Hlen. lia. }
  assert (Hentry : fst (nth i (snd plan) (0%N, 0%N)) = sumN (firstn i sizes)).
  { transitivity (nth i (map fst (snd plan)) 0%N).
    - symmetry. exact (map_nth fst (snd plan) (0%N, 0%N) i).
    - rewrite Hoffsets, running_totals_nth by exact Hcount. lia. }
  pose proof (sumN_firstn_le sizes (S i)) as Hle.
  rewrite sumN_firstn_succ in Hle by exact Hcount.
  cbv zeta. rewrite Hoffset, Hentry. fold baseOffset.
  rewrite size_add_exact by (rewrite Htotal in Hregion; lia).
  rewrite Htotal. split; [reflexivity|]. split; [lia|]. split; [lia|].
  intros Hbase. apply divide_mod_0. apply N.Lcm0.mod_divide in Hbase.
  apply N.divide_add_r; [exact Hbase|].
  rewrite Halign. apply sumN_divide.
  clear - Hsizes. revert i. induction Hsizes as [|s l Hs _ IH]; intros [|i]; simpl;
    try constructor; auto.
Qed.

End MakePlanFacts.

(** ** [MakeCompressed] *)

Section MakeCompressedLevelsFacts.

Variable caps : Caps.
Variable compression : SkTextureCompressionType.
Variable data : N.
Variable levelOffsetsAndRowBytes : list (N * N).
Variable baseOffset : N.

Local Abbreviation compressed_loop :=
  (make_compressed_levels caps compression data levelOffsetsAndRowBytes baseOffset).
Local Abbreviation oneBlockDims := (CompressedDimensions compression (MakeISize 1 1)).

Lemma make_compressed_levels_cons (srcMipOffset : N) (rest : list N) (i : nat) (w h : Z) :
  compressed_loop (srcMipOffset :: rest) i w h =
    (MakeCopyData (size_add baseOffset (fst (nth i levelOffsetsAndRowBytes (0%N, 0%N))))
                  (snd (nth i levelOffsetsAndRowBytes (0%N, 0%N)))
                  (MakeLTRB 0 0 (compressed_copy_extent caps w (fWidth oneBlockDims))
                            (compressed_copy_extent caps h (fHeight oneBlockDims)))
                  (N.of_nat i)
       :: fst (compressed_loop rest (S i) (half_dimension w) (half_dimension h)),
     writer_write (fst (nth i levelOffsetsAndRowBytes (0%N, 0%N)))
                  (Some (data + srcMipOffset)%N)
                  (CompressedRowBytes compression w)
                  (snd (nth i levelOffsetsAndRowBytes (0%N, 0%N)))
                  (CompressedRowBytes compression w)
                  (fHeight (CompressedDimensionsInBlocks compression (MakeISize w h)))
       :: snd (compressed_loop rest (S i) (half_dimension w) (half_dimension h))).
Proof.
  simpl. unfold compressed_copy_extent.
  destruct (nth i levelOffsetsAndRowBytes (0%N, 0%N)) as [dstMipOffset dstRowBytes].
  destruct (make_compressed_levels _ _ _ _ _ rest (S i) _ _) as [copies calls].
  reflexivity.
Qed.

Lemma make_compressed_levels_length (srcMipOffsets : list N) :
  forall (i : nat) (w h : Z),
    length (fst (compressed_loop srcMipOffsets i w h)) = length srcMipOffsets /\
    length (snd (compressed_loop srcMipOffsets i w h)) = length srcMipOffsets.
Proof.
  induction srcMipOffsets as [|o rest IH]; intros i w h.
  - split; reflexivity.
  - rewrite make_compressed_levels_cons. simpl.
    destruct (IH (S i) (half_dimension w) (half_dimension h)) as [H1 H2].
    now rewrite H1, H2.
Qed.

Lemma make_compressed_levels_nth (srcMipOffsets : list N) :
  forall (i : nat) (w h : Z) (k : nat),
    (k < length srcMipOffsets)%nat ->
    let entry := nth (i + k) levelOffsetsAndRowBytes (0%N, 0%N) in
    let width := Nat.iter k half_dimension w in
    let height := Nat.iter k half_dimension h in
    nth k (fst (compressed_loop srcMipOffsets i w h)) no_copy =
      MakeCopyData (size_add baseOffset (fst entry)) (snd entry)
                   (MakeLTRB 0 0 (compressed_copy_extent caps width (fWidth oneBlockDims))
                             (compressed_copy_extent caps height (fHeight oneBlockDims)))
                   (N.of_nat (i + k)) /\
    nth k (snd (compressed_loop srcMipOffsets i w h)) no_write =
      writer_write (fst entry) (Some (data + nth k srcMipOffsets 0)%N)
                   (CompressedRowBytes compression width) (snd entry)
                   (CompressedRowBytes compression width)
                   (fHeight (CompressedDimensionsInBlocks compression
                                                          (MakeISize width height))).
Proof.
  induction srcMipOffsets as [|o rest IH]; intros i w h k Hk; simpl in Hk; [lia|].
  rewrite make_compressed_levels_cons. destruct k as [|k]; simpl fst; simpl snd; cbn [nth].
  - rewrite Nat.add_0_r. split; reflexivity.
  - specialize (IH (S i) (half_dimension w) (half_dimension h) k ltac:(lia)).
    cbv zeta in IH |- *. replace (i + S k)%nat with (S i + k)%nat by lia.
    rewrite !Nat.iter_succ_r. exact IH.
Qed.

End MakeCompressedLevelsFacts.

Section MakeCompressedFacts.

Variable recorder : Recorder.
Variable textureProxy : TextureProxy.
Variable data : pointer.
Variable dataSize : N.

Local Abbreviation compressed := (MakeCompressed recorder textureProxy data dataSize).
Local Abbreviation compression := (compressionType (textureInfo textureProxy)).
Local Abbreviation srcMipOffsets :=
  (SkCompressedDataSize_offsets compression (dimensions textureProxy)
                                (mipmapped (textureInfo textureProxy))).
Local Abbreviation compressed_plan :=
  (compute_combined_buffer_size (recorder_caps recorder) (SkCompressedBlockSize compression)
                                compression (Z.of_nat (length srcMipOffsets))
                                (dimensions textureProxy)).
Local Abbreviation pool_answer := (compressed_reservation recorder textureProxy).

(** The instance of a compressed plan that succeeds. *)
Lemma MakeCompressed_accepts :
  isValid (planned_instance compressed) = true ->
  exists address buffer,
    data = Some address /\
    compression_is_none compression = false /\
    bufferInfo_fBuffer (fst pool_answer) = Some buffer /\
    let result :=
      make_compressed_levels (recorder_caps recorder) compression address
                             (snd compressed_plan) (bufferInfo_fOffset (fst pool_answer))
                             srcMipOffsets 0 (fWidth (dimensions textureProxy))
                             (fHeight (dimensions textureProxy)) in
    planned_instance compressed =
      MakeUploadInstance (Some buffer) (SkCompressedBlockSize compression)
                         (Some textureProxy) (fst result) None /\
    planned_writes compressed = snd result.
Proof.
  unfold MakeCompressed, compressed_reservation.
  destruct data as [address|]; [|discriminate].
  destruct (compression_is_none compression); [discriminate|].
  destruct compressed_plan as [[size alignment] layout].
  simpl fst. simpl snd.
  destruct (getTextureUploadWriter _ _ _) as [bufferInfo bufferMgr].
  simpl fst.
  destruct (bufferInfo_fBuffer bufferInfo) as [buffer|]; [|discriminate].
  destruct (make_compressed_levels _ _ _ _ _ _ _ _ _) as [copyData writes] eqn:Hlevels.
  intros _. exists address, buffer. cbv zeta. rewrite Hlevels. repeat split; reflexivity.
Qed.

(** X7: [MakeCompressed] gives the invalid instance exactly when the data
    pointer is null, the texture is not compressed, or the staging pool
    answers with a null buffer; it then writes nothing.  Without data or
    without compression it does not touch the upload buffer manager. *)
Theorem MakeCompressed_gives_up_exactly_when :
  (isValid (planned_instance compressed) = false <->
   data = None \/
   compression_is_none compression = true \/
   bufferInfo_fBuffer (fst pool_answer) = None) /\
  (isValid (planned_instance compressed) = false ->
   planned_instance compressed = invalid_instance /\ planned_writes compressed = []) /\
  (data = None \/ compression_is_none compression = true ->
   planned_bufferManager compressed = recorder_uploadBufferManager recorder).
Proof.
  unfold MakeCompressed, compressed_reservation.
  destruct data as [address|].
  2:{ split; [split; [now left | reflexivity]|]. split; [now split | reflexivity]. }
  destruct (compression_is_none compression).
  { split; [split; [now (right; left) | reflexivity]|]. split; [now split | reflexivity]. }
  destruct compressed_plan as [[size alignment] layout].
  simpl fst. simpl snd.
  destruct (getTextureUploadWriter _ _ _) as [bufferInfo bufferMgr].
  simpl fst.
  destruct (bufferInfo_fBuffer bufferInfo) as [buffer|].
  - destruct (make_compressed_levels _ _ _ _ _ _ _ _ _) as [copyData writes].
    simpl. split; [split; [discriminate|]|].
    + intros [H | [H | H]]; discriminate.
    + split; [discriminate|]. intros [H | H]; discriminate.
  - simpl. split; [split; [now (right; right) | reflexivity]|].
    split; [now split|]. intros [H | H]; discriminate.
Qed.

(** X8: a compressed plan that succeeds has one copy descriptor per level of
    the blob, in order, with its index as mip level and the block size as
    bytes per pixel.  The rect of level [i] starts at (0,0) and has the
    texture's dimensions halved [i] times (rounded down, at least 1), each
    rounded up to the block dimension when the device wants full blocks; its
    buffer offset is the pool's offset plus the planner's offset of the
    level, and its row bytes are the planner's. *)
Theorem MakeCompressed_descriptors :
  isValid (planned_instance compressed) = true ->
  let inst := planned_instance compressed in
  let oneBlockDims := CompressedDimensions compression (MakeISize 1 1) in
  fBytesPerPixel inst = SkCompressedBlockSize compression /\
  fTextureProxy inst = Some textureProxy /\
  length (fCopyData inst) = length srcMipOffsets /\
  forall i, (i < length srcMipOffsets)%nat ->
    let entry := nth i (snd compressed_plan) (0%N, 0%N) in
    let width := Nat.iter i half_dimension (fWidth (dimensions textureProxy)) in
    let height := Nat.iter i half_dimension (fHeight (dimensions textureProxy)) in
    nth i (fCopyData inst) no_copy =
      MakeCopyData
        (size_add (bufferInfo_fOffset (fst pool_answer)) (fst entry)) (snd entry)
        (MakeLTRB 0 0
           (compressed_copy_extent (recorder_caps recorder) width (fWidth oneBlockDims))
           (compressed_copy_extent (recorder_caps recorder) height (fHeight oneBlockDims)))
        (N.of_nat i).
Proof.
  intros Hvalid.
  destruct (MakeCompressed_accepts Hvalid)
    as (address & buffer & _ & _ & _ & Hinst & _).
  cbv zeta in Hinst |- *. rewrite Hinst. simpl.
  repeat split.
  - apply make_compressed_levels_length.
  - intros i Hi.
    apply (make_compressed_levels_nth (recorder_caps recorder) compression address
             (snd compressed_plan) (bufferInfo_fOffset (fst pool_answer)) srcMipOffsets 0
             (fWidth (dimensions textureProxy)) (fHeight (dimensions textureProxy)) i Hi).
Qed.

(** X9: a compressed plan that succeeds copies every level as it is: level
    [i] is one row copy from the data pointer plus the blob's offset of the
    level, source and trimmed row bytes both the compressed row bytes of the
    level's width, one row per block row of the level, to the planner's
    offset and row bytes of the level. *)
Theorem MakeCompressed_copies_block_rows :
  isValid (planned_instance compressed) = true ->
  exists address,
    data = Some address /\
    length (planned_writes compressed) = length srcMipOffsets /\
    forall i, (i < length srcMipOffsets)%nat ->
      let entry := nth i (snd compressed_plan) (0%N, 0%N) in
      let width := Nat.iter i half_dimension (fWidth (dimensions textureProxy)) in
      let height := Nat.iter i half_dimension (fHeight (dimensions textureProxy)) in
      nth i (planned_writes compressed) no_write =
        writer_write (fst entry) (Some (address + nth i srcMipOffsets 0)%N)
                     (CompressedRowBytes compression width) (snd entry)
                     (CompressedRowBytes compression width)
                     (fHeight (CompressedDimensionsInBlocks compression
                                                            (MakeISize width height))).
Proof.
  intros Hvalid.
  destruct (MakeCompressed_accepts Hvalid)
    as (address & buffer & Hdata & _ & _ & _ & Hwrites).
  exists address. split; [exact Hdata|].
  cbv zeta in Hwrites |- *. rewrite Hwrites. split.
  - apply make_compressed_levels_length.
  - intros i Hi.
    apply (make_compressed_levels_nth (recorder_caps recorder) compression address
             (snd compressed_plan) (bufferInfo_fOffset (fst pool_answer)) srcMipOffsets 0
             (fWidth (dimensions textureProxy)) (fHeight (dimensions textureProxy)) i Hi).
Qed.

End MakeCompressedFacts.

(** ** More on command emission *)

Lemma emit_copy_shape (inst : UploadInstance) (proxy : TextureProxy)
      (replayData : ReplayTargetData) (call : EmissionCall) :
  emit_copy inst proxy replayData = Some (Some call) ->
  exists copyData, call = call_copyBufferToTexture (fBuffer inst) (texture proxy) copyData.
Proof.
  unfold emit_copy. destruct (negb _).
  - intros H. injection H as <-. eexists. reflexivity.
  - destruct (fCopyData inst) as [|copyData rest]; [discriminate|].
    destruct (replay_copy _ _ _ _); intros H; [|discriminate].
    injection H as <-. eexists. reflexivity.
Qed.

Lemma emit_copy_defined (inst : UploadInstance) (proxy : TextureProxy)
      (replayData : ReplayTargetData) :
  fCopyData inst <> [] -> emit_copy inst proxy replayData <> None.
Proof.
  intros H. unfold emit_copy. destruct (negb _); [discriminate|].
  destruct (fCopyData inst); [congruence|]. destruct (replay_copy _ _ _ _); discriminate.
Qed.

(** X10: whatever [addCommand] does, it leaves the plan alone: buffer,
    bytes per pixel, texture proxy and copy descriptors of the instance are
    the same afterwards, and a conditional context is neither added nor
    dropped.  It emits at most one copy, and that copy reads the instance's
    buffer and writes the texture of the instance's proxy. *)
Theorem addCommand_keeps_the_plan
        (inst inst' : UploadInstance) (context : Context) (replayData : ReplayTargetData)
        (calls : list EmissionCall) :
  addCommand inst context replayData = Some (inst', calls) ->
  fBuffer inst' = fBuffer inst /\
  fBytesPerPixel inst' = fBytesPerPixel inst /\
  fTextureProxy inst' = fTextureProxy inst /\
  fCopyData inst' = fCopyData inst /\
  (fConditionalContext inst' = None <-> fConditionalContext inst = None) /\
  (count_calls is_copy calls <= 1)%nat /\
  forall call, In call calls -> is_copy call = true ->
    exists proxy copyData,
      fTextureProxy inst = Some proxy /\
      call = call_copyBufferToTexture (fBuffer inst) (texture proxy) copyData.
Proof.
  unfold addCommand.
  destruct (fTextureProxy inst) as [proxy|] eqn:Hproxy; [|discriminate].
  destruct (fConditionalContext inst) as [cond|] eqn:Hcond.
  - destruct (needsUpload cond context) as [needed cond'].
    destruct needed; simpl negb; cbv iota.
    + destruct (emit_copy inst proxy replayData) as [[copy|]|] eqn:Hemit; [| |discriminate];
        intros H; injection H as <- <-; simpl; rewrite ?Hproxy.
      * destruct (emit_copy_shape _ _ _ _ Hemit) as (copyData & ->).
        repeat split; try discriminate; try (unfold count_calls; simpl; lia).
        intros call [<- | [<- | [<- | []]]] Hc; try discriminate.
        exists proxy, copyData. split; reflexivity.
      * repeat split; try discriminate; try (unfold count_calls; simpl; lia).
        intros call [<- | []] Hc. discriminate.
    + intros H; injection H as <- <-; simpl; rewrite ?Hproxy.
      repeat split; try discriminate; try (unfold count_calls; simpl; lia).
      intros call [<- | []] Hc. discriminate.
  - destruct (emit_copy inst proxy replayData) as [[copy|]|] eqn:Hemit; [| |discriminate];
      intros H; injection H as <- <-; rewrite ?Hproxy, ?Hcond.
    + destruct (emit_copy_shape _ _ _ _ Hemit) as (copyData & ->).
      repeat split; try (unfold count_calls; simpl; lia).
      intros call [<- | []] Hc. exists proxy, copyData. split; reflexivity.
    + repeat split; try (unfold count_calls; simpl; lia).
Qed.

(** X11: recorded on any target other than the instance's own texture, an
    upload that is not skipped by its conditional context emits exactly one
    copy, of all the instance's descriptors as they are, from the instance's
    buffer to the texture of its proxy. *)
Theorem addCommand_records_all_descriptors_elsewhere
        (inst : UploadInstance) (proxy : TextureProxy) (context : Context)
        (replayData : ReplayTargetData) :
  fTextureProxy inst = Some proxy ->
  texture proxy <> fTarget replayData ->
  upload_needed inst context = true ->
  exists inst' calls,
    addCommand inst context replayData = Some (inst', calls) /\
    filter is_copy calls =
      [call_copyBufferToTexture (fBuffer inst) (texture proxy) (fCopyData inst)].
Proof.
  intros Hproxy Hother Hneeded.
  assert (Hemit : emit_copy inst proxy replayData =
                  Some (Some (call_copyBufferToTexture (fBuffer inst) (texture proxy)
                                                       (fCopyData inst)))).
  { unfold emit_copy. destruct (option_N_eqb _ _) eqn:Heq; [|reflexivity].
    apply option_N_eqb_eq in Heq. contradiction. }
  unfold addCommand, upload_needed in *. rewrite Hproxy, Hemit.
  destruct (fConditionalContext inst) as [cond|].
  - destruct (needsUpload cond context) as [needed cond']. simpl in Hneeded. subst needed.
    simpl. eexists _, _. split; reflexivity.
  - eexists _, _. split; reflexivity.
Qed.

(** X12: the copy a replay emits stays on the destination: its rect is not
    empty, lies inside the destination's bounds and inside the translated
    rect of the descriptor, and keeps the descriptor's row bytes and mip
    level.  No copy is emitted exactly when the translated rect and the
    bounds have no pixel in common. *)
Theorem replay_copy_stays_on_destination
        (bytesPerPixel : N) (bounds : SkISize) (translation : SkIVector)
        (copyData : BufferTextureCopyData) :
  let moved := rect_offset (fRect copyData) translation in
  match replay_copy bytesPerPixel bounds translation copyData with
  | Some cropped =>
      rect_isEmpty (fRect cropped) = false /\
      rect_inside (fRect cropped) (rect_MakeSize bounds) /\
      rect_inside (fRect cropped) moved /\
      fBufferRowBytes cropped = fBufferRowBytes copyData /\
      fMipLevel cropped = fMipLevel copyData
  | None =>
      (Z.min (fRight moved) (fWidth bounds) <= Z.max (fLeft moved) 0)%Z \/
      (Z.min (fBottom moved) (fHeight bounds) <= Z.max (fTop moved) 0)%Z
  end.
Proof.
  intros moved. unfold replay_copy, rect_intersect. fold moved.
  set (tmp := MakeLTRB _ _ _ _).
  destruct (rect_isEmpty tmp) eqn:Hempty.
  - unfold rect_isEmpty, rect_width, rect_height in Hempty. subst tmp.
    cbn [fLeft fTop fRight fBottom rect_MakeSize] in Hempty.
    apply orb_true_iff in Hempty. rewrite !Z.leb_le in Hempty. lia.
  - cbn [fRect fBufferRowBytes fMipLevel]. split; [exact Hempty|].
    unfold rect_inside. subst tmp. cbn [fLeft fTop fRight fBottom rect_MakeSize].
    repeat split; lia.
Qed.

(** X13: a replay whose translated rect already lies on the destination only
    moves the rect: the copy it emits has the descriptor's buffer offset, row
    bytes and mip level, and the translated rect. *)
Theorem replay_copy_without_crop
        (bytesPerPixel : N) (bounds : SkISize) (translation : SkIVector)
        (copyData : BufferTextureCopyData) :
  let moved := rect_offset (fRect copyData) translation in
  rect_isEmpty moved = false ->
  rect_inside moved (rect_MakeSize bounds) ->
  (fBufferOffset copyData < size_t_range)%N ->
  replay_copy bytesPerPixel bounds translation copyData =
    Some (MakeCopyData (fBufferOffset copyData) (fBufferRowBytes copyData) moved
                       (fMipLevel copyData)).
Proof.
  intros moved Hfull (Hl & Ht & Hr & Hb) Hoffset.
  unfold replay_copy, rect_intersect. fold moved.
  cbn [fLeft fTop fRight fBottom rect_MakeSize] in Hl, Ht, Hr, Hb |- *.
  rewrite !Z.max_l, !Z.min_l by lia.
  replace (MakeLTRB (fLeft moved) (fTop moved) (fRight moved) (fBottom moved)) with moved
    by (now destruct moved).
  rewrite Hfull, !Z.sub_diag.
  rewrite replay_offset_mod by lia. simpl Z.to_N.
  rewrite !N.mul_0_l, !N.add_0_r. now rewrite N.mod_small.
Qed.

(** X14: a conditional upload that is not needed can be asked again: if the
    context answers no, and answers no again in the state that answer left it
    in, two emissions in a row each make the query and nothing else. *)
Theorem addCommand_skips_again
        (inst : UploadInstance) (proxy : TextureProxy) (cond cond1 cond2 : ConditionalUploadContext)
        (context : Context) (replayData : ReplayTargetData) :
  fTextureProxy inst = Some proxy ->
  fConditionalContext inst = Some cond ->
  needsUpload cond context = (false, cond1) ->
  needsUpload cond1 context = (false, cond2) ->
  exists inst1 inst2,
    addCommand inst context replayData = Some (inst1, [call_needsUpload false]) /\
    addCommand inst1 context replayData = Some (inst2, [call_needsUpload false]) /\
    fConditionalContext inst1 = Some cond1 /\
    fConditionalContext inst2 = Some cond2.
Proof.
  intros Hproxy Hcond Hfirst Hsecond.
  exists (with_context inst (Some cond1)), (with_context inst (Some cond2)).
  unfold addCommand. rewrite Hproxy, Hcond, Hfirst. simpl.
  rewrite Hproxy, Hsecond. simpl. repeat split.
Qed.

(** ** [UploadTask::addCommands] *)

Lemma count_calls_app (f : EmissionCall -> bool) (a b : list EmissionCall) :
  count_calls f (a ++ b) = (count_calls f a + count_calls f b)%nat.
Proof. unfold count_calls. now rewrite filter_app, length_app. Qed.

(** X15: the emission of a task is the emission of its instances one after
    the other: for a list split in two, the calls are those of the first part
    followed by those of the second, whatever the first part emitted or
    skipped. *)
Theorem add_commands_of_concatenation
        (first second : list UploadInstance) (context : Context)
        (replayData : ReplayTargetData) :
  add_commands (first ++ second) context replayData =
    match add_commands first context replayData,
          add_commands second context replayData with
    | Some (first', calls1), Some (second', calls2) =>
        Some (first' ++ second', calls1 ++ calls2)
    | _, _ => None
    end.
Proof.
  induction first as [|inst rest IH]; simpl.
  - destruct (add_commands second context replayData) as [[second' calls2]|]; reflexivity.
  - destruct (addCommand inst context replayData) as [[inst' calls]|]; [|reflexivity].
    rewrite IH.
    destruct (add_commands rest context replayData) as [[rest' calls1]|]; [|reflexivity].
    destruct (add_commands second context replayData) as [[second' calls2]|]; [|reflexivity].
    now rewrite app_assoc.
Qed.

(** X16: on a task whose instances all have a texture proxy and at least one
    copy descriptor, [addCommands] goes through every instance and returns
    true; the instances keep their proxies and descriptors; there are at most
    as many copies as instances and at most as many notifications as
    copies. *)
Theorem UploadTask_addCommands_goes_through
        (task : UploadTask) (context : Context) (replayData : ReplayTargetData) :
  Forall emittable (task_fInstances task) ->
  exists task' calls,
    UploadTask_addCommands task context replayData = Some (true, task', calls) /\
    map fTextureProxy (task_fInstances task') = map fTextureProxy (task_fInstances task) /\
    map fCopyData (task_fInstances task') = map fCopyData (task_fInstances task) /\
    (count_calls is_copy calls <= length (task_fInstances task))%nat /\
    (count_calls is_submitted calls <= count_calls is_copy calls)%nat.
Proof.
  unfold UploadTask_addCommands. destruct task as [instances]. simpl.
  induction 1 as [|inst rest [Hproxy Hdata] _ IH]; simpl.
  - exists (MakeUploadTask []), []. repeat split; unfold count_calls; simpl; lia.
  - destruct IH as ([rest'] & calls' & Hrest & Hproxies & Hcopies & Hcount & Hnotified).
    simpl in *.
    destruct (add_commands rest context replayData) as [[rest0 calls0]|]; [|discriminate].
    injection Hrest as -> ->.
    assert (Hone : exists inst' calls,
               addCommand inst context replayData = Some (inst', calls) /\
               fTextureProxy inst' = fTextureProxy inst /\
               fCopyData inst' = fCopyData inst /\
               (count_calls is_copy calls <= 1)%nat /\
               (count_calls is_submitted calls <= count_calls is_copy calls)%nat).
    { unfold addCommand.
      destruct (fTextureProxy inst) as [proxy|] eqn:Hp; [|congruence].
      pose proof (emit_copy_defined inst proxy replayData Hdata) as Hdefined.
      destruct (fConditionalContext inst) as [cond|].
      - destruct (needsUpload cond context) as [needed cond'].
        destruct needed; simpl negb; cbv iota.
        + destruct (emit_copy inst proxy replayData) as [[copy|]|] eqn:Hemit; [| |congruence].
          * apply emit_copy_is_copy in Hemit. eexists _, _. split; [reflexivity|].
            split; [exact Hp|]. split; [reflexivity|].
            destruct copy; try discriminate. unfold count_calls. simpl. lia.
          * eexists _, _. split; [reflexivity|].
            split; [exact Hp|]. split; [reflexivity|]. unfold count_calls. simpl. lia.
        + eexists _, _. split; [reflexivity|].
          split; [exact Hp|]. split; [reflexivity|]. unfold count_calls. simpl. lia.
      - destruct (emit_copy inst proxy replayData) as [[copy|]|] eqn:Hemit; [| |congruence].
        + apply emit_copy_is_copy in Hemit. eexists _, _. split; [reflexivity|].
          split; [exact Hp|]. split; [reflexivity|].
          destruct copy; try discriminate. unfold count_calls. simpl. lia.
        + eexists _, _. split; [reflexivity|].
          split; [exact Hp|]. split; [reflexivity|]. unfold count_calls. simpl. lia. }
    destruct Hone as (inst' & calls & Hadd & Hp & Hc & Hmax & Hle).
    rewrite Hadd. exists (MakeUploadTask (inst' :: rest')), (calls ++ calls').
    split; [reflexivity|]. simpl. rewrite Hp, Hc, Hproxies, Hcopies, !count_calls_app.
    repeat split; lia.
Qed.

(** ** Lists and tasks of valid instances *)

(** X17: [recordUpload] never lets an invalid instance into the list: if
    every instance of the list is valid before the call, every instance is
    valid after it, whether the new upload was taken or not. *)
Theorem recordUpload_keeps_every_instance_valid
        (uploads : UploadList) (recorder : Recorder) (textureProxy : TextureProxy)
        (srcColorInfo dstColorInfo : SkColorInfo) (levels : list MipLevel)
        (dstRect : SkIRect) (condContext : option ConditionalUploadContext) :
  Forall (fun inst => isValid inst = true) (fInstances uploads) ->
  Forall (fun inst => isValid inst = true)
         (fInstances (snd (fst (recordUpload uploads recorder textureProxy srcColorInfo
                                             dstColorInfo levels dstRect condContext)))).
Proof.
  intros Hvalid. unfold recordUpload.
  destruct (isValid (planned_instance _)) eqn:Hnew; simpl.
  - apply Forall_app. split; [exact Hvalid|]. constructor; [exact Hnew | constructor].
  - exact Hvalid.
Qed.

Lemma prepare_instances_accepting (state : Type)
      (instantiate : state -> TextureProxy -> bool * state)
      (instances : list UploadInstance) :
  Forall (fun inst => isValid inst = true) instances ->
  (forall st proxy, fst (instantiate st proxy) = true) ->
  forall st,
    fst (prepare_instances instances (MakeResourceProvider state st instantiate)) = true.
Proof.
  intros Hvalid Haccepts.
  induction Hvalid as [|inst rest Hinst _ IH]; intros st; [reflexivity|].
  simpl. unfold UploadInstance_prepareResources, isValid in *.
  destruct (fTextureProxy inst) as [proxy|]; [|discriminate].
  unfold InstantiateIfNotLazy. simpl.
  specialize (Haccepts st proxy).
  destruct (instantiate st proxy) as [ok st']. simpl in Haccepts. subst ok.
  simpl. apply IH.
Qed.

(** X18: on a task of valid instances (as [recordUpload] and
    [UploadTask::Make] build them) [prepareResources] can only fail because
    [InstantiateIfNotLazy] refuses a proxy: a false result names a first
    instance whose proxy was refused, all instances before it prepared.  With
    a resource provider that accepts every proxy the result is true. *)
Theorem UploadTask_prepareResources_of_valid_instances
        (task : UploadTask) (rp : ResourceProvider) :
  Forall (fun inst => isValid inst = true) (task_fInstances task) ->
  (forall rp',
      UploadTask_prepareResources task rp = (false, rp') ->
      exists pre bad post proxy rp1,
        task_fInstances task = pre ++ bad :: post /\
        PreparedAll pre rp rp1 /\
        fTextureProxy bad = Some proxy /\
        InstantiateIfNotLazy rp1 proxy = (false, rp')) /\
  ((forall st proxy, fst (provider_instantiate rp st proxy) = true) ->
   fst (UploadTask_prepareResources task rp) = true).
Proof.
  intros Hvalid. unfold UploadTask_prepareResources. split.
  - intros rp' Hfalse. apply prepare_instances_false in Hfalse.
    destruct Hfalse as (pre & bad & post & rp1 & Hsplit & Hpre & Hbad).
    destruct Hbad as [[Hnull _] | (proxy & Hproxy & Hrefused)].
    + rewrite Hsplit in Hvalid. apply Forall_app in Hvalid. destruct Hvalid as [_ Hvalid].
      inversion Hvalid as [|? ? Hbad _]; subst. unfold isValid in Hbad.
      rewrite Hnull in Hbad. discriminate.
    + now exists pre, bad, post, proxy, rp1.
  - intros Haccepts. destruct rp as [state st instantiate]. simpl in Haccepts.
    now apply prepare_instances_accepting.
Qed.

End UploadTask.

(** ** The theorems at concrete uploads *)

(** C1 at its failing input: a BC1 texture of 8x8 pixels (2x2 blocks of 8
    bytes), two levels, on a device with 4-byte alignments.  The planner
    places level 1 at offset 128: it gave level 0 its 16 row bytes times the
    pixel height 8.  The row bytes times the block-grid height 2, aligned,
    are 32. *)
Lemma planner_sizes_base_level_by_pixel_height :
  compute_combined_buffer_size blocks_4x4 caps_align4 8 kBC1_RGB8_UNORM 2 (MakeISize 8 8)
    = ((136%N, 8%N), [(0%N, 16%N); (128%N, 8%N)]) /\
  level_sizes blocks_4x4 caps_align4 8 kBC1_RGB8_UNORM 2 (MakeISize 8 8) = [128%N; 8%N] /\
  block_grid_level_size blocks_4x4 caps_align4 8 kBC1_RGB8_UNORM (MakeISize 8 8) = 32%N /\
  blocks_4x4 kBC1_RGB8_UNORM (MakeISize 8 8) = MakeISize 2 2.
Proof. repeat split; vm_compute; reflexivity. Qed.

(** Scenario 3 of the spec: 8x8, four levels of 4-byte pixels. *)
Lemma planner_lays_out_8x8_chain :
  (1 <= 4)%Z /\
  fits_size_t blocks_4x4 caps_align4 4 kNone 4 (MakeISize 8 8) /\
  let result := compute_combined_buffer_size blocks_4x4 caps_align4 4 kNone 4 (MakeISize 8 8) in
  map fst (snd result) = [0%N; 256%N; 320%N; 336%N] /\
  Forall (fun o => (o mod 4 = 0)%N) (map fst (snd result)) /\
  (fst (fst result) mod snd (fst result) = 0)%N /\
  sumN (level_sizes blocks_4x4 caps_align4 4 kNone 4 (MakeISize 8 8)) = fst (fst result).
Proof.
  assert (Hcount : (1 <= 4)%Z) by lia.
  assert (Hfit : fits_size_t blocks_4x4 caps_align4 4 kNone 4 (MakeISize 8 8))
    by (vm_compute; reflexivity).
  split; [exact Hcount|]. split; [exact Hfit|].
  destruct (planner_offsets_aligned_to_required_alignment blocks_4x4 caps_align4 4 kNone 4
              (MakeISize 8 8) Hcount Hfit)
    as (_ & _ & Haligned & Hsum & Htotal & _).
  cbv zeta. split; [vm_compute; reflexivity|].
  split; [exact Haligned|]. split; [exact Htotal | exact Hsum].
Defined.

(** C5 as the spec words it fails for 3-byte pixels on a device whose
    transfer alignment is 2: the three levels of a 5x5 texture are 75, 12
    and 3 bytes, nothing overflows, and level 1 is recorded at offset 75,
    which is a multiple of the returned alignment 3 and not of the device's
    2. *)
Lemma planner_offset_off_device_alignment :
  let result := compute_combined_buffer_size blocks_4x4 caps_transfer2 3 kNone 3
                                             (MakeISize 5 5) in
  requiredTransferBufferAlignment caps_transfer2 = 2%N /\
  fits_size_t blocks_4x4 caps_transfer2 3 kNone 3 (MakeISize 5 5) /\
  result = ((90%N, 3%N), [(0%N, 15%N); (75%N, 6%N); (87%N, 3%N)]) /\
  (nth 1 (map fst (snd result)) 0 mod requiredTransferBufferAlignment caps_transfer2 = 1)%N /\
  (nth 1 (map fst (snd result)) 0 mod snd (fst result) = 0)%N.
Proof. cbv zeta. repeat split; vm_compute; reflexivity. Qed.

(** The pool has nothing left: no instance. *)
Lemma Make_without_staging_buffer :
  bufferInfo_fBuffer
    (fst (requested_reservation blocks_4x4 bytesPerPixel_4 recorder_exhausted texture_4x4
                                rgba_premul rgba_premul levels_4x4 (MakeLTRB 0 0 4 4)))
    = None /\
  planned_instance (Make blocks_4x4 bytesPerPixel_4 tight_rowBytes recorder_exhausted
                         texture_4x4 rgba_premul rgba_premul levels_4x4 (MakeLTRB 0 0 4 4)
                         None)
    = invalid_instance.
Proof.
  assert (H : bufferInfo_fBuffer
                (fst (requested_reservation blocks_4x4 bytesPerPixel_4 recorder_exhausted
                        texture_4x4 rgba_premul rgba_premul levels_4x4 (MakeLTRB 0 0 4 4)))
              = None) by (vm_compute; reflexivity).
  split; [exact H|].
  apply (Make_returns_invalid_instance blocks_4x4 bytesPerPixel_4 tight_rowBytes
           recorder_exhausted texture_4x4 rgba_premul rgba_premul levels_4x4
           (MakeLTRB 0 0 4 4) None).
  right; right; right; right. exact H.
Defined.

(** Scenario 2 of the spec: the device only writes the 3-byte RGB format. *)
Lemma Make_packs_rgb888 :
  let planned := Make blocks_4x4 bytesPerPixel_4 tight_rowBytes recorder_rgb888 texture_4x4
                      rgba_premul rgbx_opaque levels_4x4 (MakeLTRB 0 0 4 4) None in
  isValid (planned_instance planned) = true /\
  fBytesPerPixel (planned_instance planned) = 3%N /\
  Forall (fun call => is_writeRGBFromRGBx call = true) (planned_writes planned).
Proof.
  cbv zeta.
  assert (Hvalid : isValid (planned_instance
                     (Make blocks_4x4 bytesPerPixel_4 tight_rowBytes recorder_rgb888
                           texture_4x4 rgba_premul rgbx_opaque levels_4x4
                           (MakeLTRB 0 0 4 4) None)) = true) by (vm_compute; reflexivity).
  split; [exact Hvalid|].
  destruct (Make_bytesPerPixel_follows_format blocks_4x4 bytesPerPixel_4 tight_rowBytes
              recorder_rgb888 texture_4x4 rgba_premul rgbx_opaque levels_4x4
              (MakeLTRB 0 0 4 4) None Hvalid) as (Hrgb & _ & _).
  apply Hrgb. vm_compute. reflexivity.
Defined.

(** A mip chain on a 5x5 texture: 5x5, 2x2, 1x1. *)
Lemma Make_chain_of_5x5 :
  let planned := Make blocks_4x4 bytesPerPixel_4 tight_rowBytes recorder_rgba texture_5x5
                      rgba_premul rgba_premul levels_5x5 (MakeLTRB 0 0 5 5) None in
  let copyData := fCopyData (planned_instance planned) in
  isValid (planned_instance planned) = true /\
  length copyData = 3%nat /\
  rect_width (fRect (nth 1 copyData no_copy))
    = Z.max 1 (rect_width (fRect (nth 0 copyData no_copy)) / 2).
Proof.
  cbv zeta.
  assert (Hvalid : isValid (planned_instance
                     (Make blocks_4x4 bytesPerPixel_4 tight_rowBytes recorder_rgba
                           texture_5x5 rgba_premul rgba_premul levels_5x5
                           (MakeLTRB 0 0 5 5) None)) = true) by (vm_compute; reflexivity).
  split; [exact Hvalid|].
  destruct (Make_copy_descriptors_halve_rounding_down blocks_4x4 bytesPerPixel_4
              tight_rowBytes recorder_rgba texture_5x5 rgba_premul rgba_premul levels_5x5
              (MakeLTRB 0 0 5 5) None Hvalid) as (Hlen & _ & _ & Hhalve).
  split; [exact Hlen|].
  destruct (Hhalve 0%nat) as (_ & _ & Hw & _); [simpl; lia | exact Hw].
Defined.

(** C2 as the spec words it fails on that chain: level 1 is 2 pixels wide,
    and half of 5 rounded up is 3. *)
Lemma Make_chain_of_5x5_is_not_rounded_up :
  let planned := Make blocks_4x4 bytesPerPixel_4 tight_rowBytes recorder_rgba texture_5x5
                      rgba_premul rgba_premul levels_5x5 (MakeLTRB 0 0 5 5) None in
  let copyData := fCopyData (planned_instance planned) in
  isValid (planned_instance planned) = true /\
  map fRect copyData = [MakeLTRB 0 0 5 5; MakeLTRB 0 0 2 2; MakeLTRB 0 0 1 1] /\
  half_rounded_up (rect_width (fRect (nth 0 copyData no_copy))) = 3%Z /\
  rect_width (fRect (nth 1 copyData no_copy))
    <> half_rounded_up (rect_width (fRect (nth 0 copyData no_copy))).
Proof.
  cbv zeta. repeat split; try (vm_compute; reflexivity).
  vm_compute. discriminate.
Qed.

(** C3 as the spec words it fails at its own scenario 4: rect [2,2,6,6]
    moved by (+1,+1) on a destination of 8x7 is copied as [3,3,7,7] from the
    descriptor's buffer offset 64, nothing being cropped; counted from the
    descriptor's original top and left the offset would be 64 + 16 + 4. *)
Lemma addCommand_scenario_4_keeps_buffer_offset :
  let copyData := MakeCopyData 64 16 (MakeLTRB 2 2 6 6) 0 in
  fCopyData replay_instance = [copyData] /\
  addCommand replay_instance 0%N (replay_by 1 1)
    = Some (replay_instance,
            [call_copyBufferToTexture (Some 1%N) (Some 9%N)
               [MakeCopyData 64 16 (MakeLTRB 3 3 7 7) 0]]) /\
  offset_from_descriptor_rect (fBytesPerPixel replay_instance) copyData (MakeLTRB 3 3 7 7)
    = 84%N /\
  64%N <> offset_from_descriptor_rect (fBytesPerPixel replay_instance) copyData
                                      (MakeLTRB 3 3 7 7).
Proof.
  cbv zeta. repeat split; try (vm_compute; reflexivity).
  vm_compute. discriminate.
Qed.

(** The same rect moved by (-3,-3) lands on [-1,-1,3,3] and is cropped to
    [0,0,3,3]: one row and one column are cut off, and the copy starts one
    row and one pixel further into the buffer, at 64 + 1 * 16 + 1 * 4. *)
Lemma addCommand_replay_realigns_cropped_copy :
  exists inst' calls,
    addCommand replay_instance 0%N (replay_by (-3) (-3)) = Some (inst', calls) /\
    filter is_copy calls =
      [call_copyBufferToTexture (Some 1%N) (Some 9%N)
         [MakeCopyData 84 16 (MakeLTRB 0 0 3 3) 0]].
Proof.
  destruct (addCommand_replay_crops_and_realigns replay_instance texture_8x7
              (MakeCopyData 64 16 (MakeLTRB 2 2 6 6) 0) 0%N (replay_by (-3) (-3))
              eq_refl eq_refl eq_refl eq_refl)
    as (inst' & calls & Hadd & Hcrop).
  exists inst', calls. split; [exact Hadd|].
  change (rect_intersect _ _) with (Some (MakeLTRB 0 0 3 3)) in Hcrop.
  destruct Hcrop as (_ & _ & offset & Hcalls & Hoffset & _).
  rewrite Hcalls, Hoffset. vm_compute. reflexivity.
Defined.

(** The same rect moved by (-3,-3) is cropped to [0,0,3,3]; the copy starts
    one row and one pixel further into the buffer. *)
Example addCommand_crop_moves_buffer_offset :
  addCommand replay_instance 0%N (replay_by (-3) (-3))
    = Some (replay_instance,
            [call_copyBufferToTexture (Some 1%N) (Some 9%N)
               [MakeCopyData (64 + 1 * 16 + 1 * 4) 16 (MakeLTRB 0 0 3 3) 0]]).
Proof. vm_compute. reflexivity. Qed.

(** Scenario 5 of the spec: moved off the destination, nothing is emitted. *)
Example addCommand_crop_away :
  addCommand replay_instance 0%N (replay_by 8 0) = Some (replay_instance, []).
Proof. vm_compute. reflexivity. Qed.

(** A conditional upload recorded on its own destination: the query, the
    copy and one notification, and the context has counted that one
    notification. *)
Lemma addCommand_notifies_once :
  exists inst' calls,
    addCommand conditional_instance 0%N record_elsewhere = Some (inst', calls) /\
    count_calls is_copy calls = 1%nat /\
    count_calls is_submitted calls = 1%nat /\
    fConditionalContext inst' =
      Some (MakeConditionalUploadContext nat 1%nat (cond_needsUpload always_needed)
                                         (cond_uploadSubmitted always_needed)).
Proof.
  destruct (addCommand_notifies_iff_emitted conditional_instance texture_8x7 always_needed
              0%N record_elsewhere eq_refl eq_refl)
    as (inst' & calls & Hadd & Hcount & _ & Hstate & _ & _ & Hone).
  - discriminate.
  - exists inst', calls. split; [exact Hadd|].
    assert (Hcopy : count_calls is_copy calls = 1%nat).
    { pose proof Hadd as Hcalls. vm_compute in Hcalls.
      injection Hcalls as _ <-. reflexivity. }
    split; [exact Hcopy|]. split; [now rewrite Hcount|].
    cbv zeta in Hstate. rewrite Hstate, Hcopy. reflexivity.
Defined.

(** The same upload replayed off its destination: the query is the only
    call, and the context has counted no notification. *)
Example addCommand_crop_away_notifies_nobody :
  addCommand conditional_instance 0%N (replay_by 8 0)
    = Some (conditional_instance, [call_needsUpload true]) /\
  cond_current always_needed = 0%nat.
Proof. split; reflexivity. Qed.

(** The other ways [Make] gives up: an empty rect, a level without pixels, no
    colour type the device can write. *)
Example Make_with_empty_rect :
  planned_instance (Make blocks_4x4 bytesPerPixel_4 tight_rowBytes recorder_rgba texture_4x4
                         rgba_premul rgba_premul levels_4x4 (MakeLTRB 2 2 2 6) None)
    = invalid_instance.
Proof. vm_compute. reflexivity. Qed.

Example Make_with_gap_in_mip_data :
  planned_instance (Make blocks_4x4 bytesPerPixel_4 tight_rowBytes recorder_rgba texture_5x5
                         rgba_premul rgba_premul
                         [MakeMipLevel (Some 4096%N) 20; MakeMipLevel None 8;
                          MakeMipLevel (Some 8448%N) 4]
                         (MakeLTRB 0 0 5 5) None)
    = invalid_instance.
Proof. vm_compute. reflexivity. Qed.

Example Make_without_write_format :
  planned_instance (Make blocks_4x4 bytesPerPixel_4 tight_rowBytes recorder_no_write
                         texture_4x4 rgba_premul rgba_premul levels_4x4 (MakeLTRB 0 0 4 4)
                         None)
    = invalid_instance.
Proof. vm_compute. reflexivity. Qed.

(** Scenario 1 of the spec: 4x4, one level, 4 bytes per pixel, the same
    colour description on both sides. *)
Example Make_single_level_4x4 :
  let planned := Make blocks_4x4 bytesPerPixel_4 tight_rowBytes recorder_rgba texture_4x4
                      rgba_premul rgba_premul levels_4x4 (MakeLTRB 0 0 4 4) None in
  fCopyData (planned_instance planned) = [MakeCopyData 0 16 (MakeLTRB 0 0 4 4) 0] /\
  planned_writes planned = [writer_write 0 (Some 4096%N) 16 16 16 4].
Proof. vm_compute. split; reflexivity. Qed.

(** Fail-fast preparation: the second of three instances has no proxy; the
    provider was asked for the first one only. *)
Example prepareResources_stops_at_null_proxy :
  UploadTask_prepareResources
    (MakeUploadTask [upload_to (Some texture_5x5); upload_to None;
                     upload_to (Some texture_5x5)])
    logging_provider
  = (false, MakeResourceProvider (list TextureProxy) [texture_5x5]
                                 (provider_instantiate logging_provider)).
Proof. reflexivity. Qed.

(** The provider refuses the second proxy; the third is never asked for. *)
Example prepareResources_stops_at_refused_proxy :
  UploadTask_prepareResources
    (MakeUploadTask [upload_to (Some texture_5x5); upload_to (Some texture_4x4);
                     upload_to (Some texture_8x7)])
    logging_provider
  = (false, MakeResourceProvider (list TextureProxy) [texture_5x5; texture_4x4]
                                 (provider_instantiate logging_provider)).
Proof. reflexivity. Qed.

(** ** The further properties at concrete uploads *)

(** The 8x8 chain of scenario 3: level 1 starts at 256, is 64 bytes long,
    and level 2 starts right behind it. *)
Lemma planner_8x8_chain_is_contiguous :
  fits_size_t blocks_4x4 caps_align4 4 kNone 4 (MakeISize 8 8) /\
  let result := compute_combined_buffer_size blocks_4x4 caps_align4 4 kNone 4 (MakeISize 8 8) in
  let sizes := level_sizes blocks_4x4 caps_align4 4 kNone 4 (MakeISize 8 8) in
  nth 2 (map fst (snd result)) 0%N = (nth 1 (map fst (snd result)) 0 + nth 1 sizes 0)%N /\
  nth 1 (map fst (snd result)) 0%N = 256%N /\ nth 1 sizes 0%N = 64%N.
Proof.
  assert (Hfit : fits_size_t blocks_4x4 caps_align4 4 kNone 4 (MakeISize 8 8))
    by (vm_compute; reflexivity).
  split; [exact Hfit|]. cbv zeta.
  destruct (planner_levels_are_contiguous blocks_4x4 caps_align4 4 kNone 4 (MakeISize 8 8)
              Hfit 1%nat) as [_ Hnext].
  { vm_compute. lia. }
  split; [apply Hnext; vm_compute; lia|]. split; vm_compute; reflexivity.
Defined.

(** The 5x5 chain: level 1 is copied row by row, 2 rows of 8 bytes, to
    offset 100. *)
Lemma Make_copies_level_1_of_5x5 :
  let planned := Make blocks_4x4 bytesPerPixel_4 tight_rowBytes recorder_rgba texture_5x5
                      rgba_premul rgba_premul levels_5x5 (MakeLTRB 0 0 5 5) None in
  isValid (planned_instance planned) = true /\
  nth 1 (planned_writes planned) no_write = writer_write 100 (Some 8192%N) 8 8 8 2.
Proof.
  cbv zeta.
  assert (Hvalid : isValid (planned_instance
                     (Make blocks_4x4 bytesPerPixel_4 tight_rowBytes recorder_rgba
                           texture_5x5 rgba_premul rgba_premul levels_5x5
                           (MakeLTRB 0 0 5 5) None)) = true) by (vm_compute; reflexivity).
  split; [exact Hvalid|].
  destruct (Make_packs_each_level_at_its_offset blocks_4x4 bytesPerPixel_4 tight_rowBytes
              recorder_rgba texture_5x5 rgba_premul rgba_premul levels_5x5
              (MakeLTRB 0 0 5 5) None Hvalid 1%nat) as [_ Hcall].
  { simpl. lia. }
  vm_compute in Hcall. vm_compute. exact Hcall.
Defined.

(** The 5x5 chain in its region: level 2 sits 116 bytes in, 4 bytes before
    the end of the 120 reserved. *)
Lemma Make_keeps_5x5_chain_in_region :
  let planned := Make blocks_4x4 bytesPerPixel_4 tight_rowBytes recorder_rgba texture_5x5
                      rgba_premul rgba_premul levels_5x5 (MakeLTRB 0 0 5 5) None in
  isValid (planned_instance planned) = true /\
  fits_size_t blocks_4x4 caps_align4 4 kNone 3 (MakeISize 5 5) /\
  fBufferOffset (nth 2 (fCopyData (planned_instance planned)) no_copy) = (0 + (100 + 16))%N /\
  (fBufferOffset (nth 2 (fCopyData (planned_instance planned)) no_copy) mod 4 = 0)%N.
Proof.
  cbv zeta.
  assert (Hvalid : isValid (planned_instance
                     (Make blocks_4x4 bytesPerPixel_4 tight_rowBytes recorder_rgba
                           texture_5x5 rgba_premul rgba_premul levels_5x5
                           (MakeLTRB 0 0 5 5) None)) = true) by (vm_compute; reflexivity).
  assert (Hfit : fits_size_t blocks_4x4 caps_align4 4 kNone 3 (MakeISize 5 5))
    by (vm_compute; reflexivity).
  split; [exact Hvalid|]. split; [exact Hfit|].
  destruct (Make_descriptors_stay_in_region blocks_4x4 bytesPerPixel_4 tight_rowBytes
              recorder_rgba texture_5x5 rgba_premul rgba_premul levels_5x5
              (MakeLTRB 0 0 5 5) None Hvalid Hfit) with (i := 2%nat)
    as (Hoffset & _ & _ & Haligned).
  { vm_compute. reflexivity. }
  { simpl. lia. }
  split.
  - rewrite Hoffset. vm_compute. reflexivity.
  - apply Haligned. vm_compute. reflexivity.
Defined.

(** The BC1 texture on a device that wants full blocks: four descriptors;
    level 2 is 2x2 pixels and is copied as one 4x4 block. *)
Lemma MakeCompressed_describes_bc1_chain :
  let planned := MakeCompressed blocks_4x4 offsets_of_bc1_8x8 block_size_8 row_bytes_4x4
                                pixels_of_blocks_4x4 recorder_full_blocks texture_bc1_8x8
                                (Some 4096%N) 56 in
  isValid (planned_instance planned) = true /\
  length (fCopyData (planned_instance planned)) = 4%nat /\
  fRect (nth 2 (fCopyData (planned_instance planned)) no_copy) = MakeLTRB 0 0 4 4.
Proof.
  cbv zeta.
  assert (Hvalid : isValid (planned_instance
                     (MakeCompressed blocks_4x4 offsets_of_bc1_8x8 block_size_8 row_bytes_4x4
                                     pixels_of_blocks_4x4 recorder_full_blocks
                                     texture_bc1_8x8 (Some 4096%N) 56)) = true)
    by (vm_compute; reflexivity).
  split; [exact Hvalid|].
  destruct (MakeCompressed_descriptors blocks_4x4 offsets_of_bc1_8x8 block_size_8
              row_bytes_4x4 pixels_of_blocks_4x4 recorder_full_blocks texture_bc1_8x8
              (Some 4096%N) 56 Hvalid) as (_ & _ & Hlen & Hnth).
  split; [exact Hlen|].
  rewrite (Hnth 2%nat) by (simpl; lia). vm_compute. reflexivity.
Defined.

(** The same blob: level 1 is read 32 bytes into the data, one block row of
    8 bytes. *)
Lemma MakeCompressed_copies_bc1_level_1 :
  let planned := MakeCompressed blocks_4x4 offsets_of_bc1_8x8 block_size_8 row_bytes_4x4
                                pixels_of_blocks_4x4 recorder_full_blocks texture_bc1_8x8
                                (Some 4096%N) 56 in
  isValid (planned_instance planned) = true /\
  nth 1 (planned_writes planned) no_write = writer_write 128 (Some 4128%N) 8 8 8 1.
Proof.
  cbv zeta.
  assert (Hvalid : isValid (planned_instance
                     (MakeCompressed blocks_4x4 offsets_of_bc1_8x8 block_size_8 row_bytes_4x4
                                     pixels_of_blocks_4x4 recorder_full_blocks
                                     texture_bc1_8x8 (Some 4096%N) 56)) = true)
    by (vm_compute; reflexivity).
  split; [exact Hvalid|].
  destruct (MakeCompressed_copies_block_rows blocks_4x4 offsets_of_bc1_8x8 block_size_8
              row_bytes_4x4 pixels_of_blocks_4x4 recorder_full_blocks texture_bc1_8x8
              (Some 4096%N) 56 Hvalid) as (address & Hdata & _ & Hnth).
  injection Hdata as <-.
  rewrite (Hnth 1%nat) by (simpl; lia). vm_compute. reflexivity.
Defined.

(** Scenario 4 again: the instance is the same after the replay. *)
Lemma addCommand_keeps_replayed_instance :
  addCommand replay_instance 0%N (replay_by 1 1)
    = Some (replay_instance,
            [call_copyBufferToTexture (Some 1%N) (Some 9%N)
               [MakeCopyData 64 16 (MakeLTRB 3 3 7 7) 0]]) /\
  fCopyData replay_instance = [MakeCopyData 64 16 (MakeLTRB 2 2 6 6) 0].
Proof.
  assert (Hadd : addCommand replay_instance 0%N (replay_by 1 1)
                 = Some (replay_instance,
                         [call_copyBufferToTexture (Some 1%N) (Some 9%N)
                            [MakeCopyData 64 16 (MakeLTRB 3 3 7 7) 0]]))
    by (vm_compute; reflexivity).
  split; [exact Hadd|].
  destruct (addCommand_keeps_the_plan replay_instance replay_instance 0%N (replay_by 1 1)
              _ Hadd) as (_ & _ & _ & Hcopies & _).
  exact Hcopies.
Defined.

(** A conditional upload recorded on its own destination copies its one
    descriptor untouched. *)
Lemma addCommand_records_conditional_upload :
  exists inst' calls,
    addCommand conditional_instance 0%N record_elsewhere = Some (inst', calls) /\
    filter is_copy calls =
      [call_copyBufferToTexture (Some 1%N) (Some 9%N)
         [MakeCopyData 64 16 (MakeLTRB 2 2 6 6) 0]].
Proof.
  apply (addCommand_records_all_descriptors_elsewhere conditional_instance texture_8x7 0%N
           record_elsewhere eq_refl).
  - discriminate.
  - reflexivity.
Defined.

(** Scenario 4 once more: nothing is cropped, so only the rect moves. *)
Lemma replay_copy_of_scenario_4 :
  replay_copy 4 (MakeISize 8 7) (MakeIVector 1 1) (MakeCopyData 64 16 (MakeLTRB 2 2 6 6) 0)
    = Some (MakeCopyData 64 16 (MakeLTRB 3 3 7 7) 0).
Proof.
  apply (replay_copy_without_crop 4 (MakeISize 8 7) (MakeIVector 1 1)
           (MakeCopyData 64 16 (MakeLTRB 2 2 6 6) 0)).
  - reflexivity.
  - unfold rect_inside. simpl. lia.
  - vm_compute. reflexivity.
Defined.

(** An upload nobody needs: asked twice, it answers twice and emits
    nothing. *)
Lemma addCommand_skips_twice :
  exists inst1 inst2,
    addCommand skipped_instance 0%N record_elsewhere
      = Some (inst1, [call_needsUpload false]) /\
    addCommand inst1 0%N record_elsewhere = Some (inst2, [call_needsUpload false]) /\
    fConditionalContext inst1 = Some (asked 1) /\
    fConditionalContext inst2 = Some (asked 2).
Proof.
  apply (addCommand_skips_again skipped_instance texture_8x7 never_needed (asked 1) (asked 2)
           0%N record_elsewhere); reflexivity.
Defined.

(** A task of three uploads, the middle one not needed: the first and the
    last are still recorded. *)
Lemma addCommands_passes_skipped_upload :
  Forall emittable [replay_instance; skipped_instance; conditional_instance] /\
  exists task' calls,
    UploadTask_addCommands
      (MakeUploadTask [replay_instance; skipped_instance; conditional_instance])
      0%N record_elsewhere = Some (true, task', calls) /\
    count_calls is_copy calls = 2%nat /\
    (count_calls is_submitted calls <= count_calls is_copy calls)%nat.
Proof.
  assert (Hemittable : Forall emittable
                         [replay_instance; skipped_instance; conditional_instance]).
  { repeat constructor; discriminate. }
  split; [exact Hemittable|].
  destruct (UploadTask_addCommands_goes_through
              (MakeUploadTask [replay_instance; skipped_instance; conditional_instance])
              0%N record_elsewhere Hemittable)
    as (task' & calls & Hadd & _ & _ & _ & Hnotified).
  exists task', calls. split; [exact Hadd|]. split; [|exact Hnotified].
  vm_compute in Hadd. injection Hadd as _ <-. reflexivity.
Defined.

(** A list of one valid instance stays valid when an upload with an empty
    rect is turned away. *)
Lemma recordUpload_turns_away_empty_rect :
  Forall (fun inst => isValid inst = true) [replay_instance] /\
  Forall (fun inst => isValid inst = true)
         (fInstances
            (snd (fst (recordUpload blocks_4x4 bytesPerPixel_4 tight_rowBytes
                                    (MakeUploadList [replay_instance]) recorder_rgba
                                    texture_4x4 rgba_premul rgba_premul levels_4x4
                                    (MakeLTRB 2 2 2 6) None)))).
Proof.
  assert (Hvalid : Forall (fun inst => isValid inst = true) [replay_instance])
    by (repeat constructor).
  split; [exact Hvalid|].
  apply (recordUpload_keeps_every_instance_valid blocks_4x4 bytesPerPixel_4 tight_rowBytes
           (MakeUploadList [replay_instance]) recorder_rgba texture_4x4 rgba_premul
           rgba_premul levels_4x4 (MakeLTRB 2 2 2 6) None Hvalid).
Defined.

(** Two valid uploads, the provider refusing the second proxy: the failure
    is a refusal. *)
Lemma prepareResources_fails_by_refusal :
  Forall (fun inst => isValid inst = true)
         [upload_to (Some texture_5x5); upload_to (Some texture_4x4)] /\
  exists pre bad post proxy rp1 rp',
    [upload_to (Some texture_5x5); upload_to (Some texture_4x4)] = pre ++ bad :: post /\
    fTextureProxy bad = Some proxy /\
    InstantiateIfNotLazy rp1 proxy = (false, rp').
Proof.
  assert (Hvalid : Forall (fun inst => isValid inst = true)
                          [upload_to (Some texture_5x5); upload_to (Some texture_4x4)])
    by (repeat constructor).
  split; [exact Hvalid|].
  destruct (UploadTask_prepareResources_of_valid_instances
              (MakeUploadTask [upload_to (Some texture_5x5); upload_to (Some texture_4x4)])
              logging_provider Hvalid) as [Hfalse _].
  destruct (Hfalse _ eq_refl) as (pre & bad & post & proxy & rp1 & Hsplit & _ & Hproxy & Hno).
  exists pre, bad, post, proxy, rp1. eexists. repeat split; eassumption.
Defined.
